(** * Provider authorizer middleware

    A shallow embedding of
    [internal/http/interceptors/providerauthorizer/providerauthorizer.go]:
    the driver lookup [getDriver], the constructor [New] and the request
    handler that [New] returns, followed by the properties of the
    request decision flow that the specification states about them. *)

From Stdlib Require Import ZArith String Ascii List Lia.
From stdpp Require Import base option gmap strings list.
Import ListNotations.

Local Open Scope Z_scope.
Local Open Scope string_scope.
Local Open Scope list_scope.

(** ** Go values *)

(** A Go [error] value, identified by its message; [nil] is [None] of
    [option error]. *)
Definition error := string.

(** A Go result pair [(value, err)]: the value when [err == nil], the
    error otherwise. *)
Inductive result (A : Type) : Type :=
| Ok (a : A)
| Err (e : error).
Arguments Ok {A} a.
Arguments Err {A} e.

(** How a statement leaves: falling through to the next one with a
    value, by [return], or by a run-time panic. *)
Inductive Flow (A : Type) : Type :=
| Next (a : A)
| Returned
| Panicked (msg : string).
Arguments Next {A} a.
Arguments Returned {A}.
Arguments Panicked {A} msg.

(** [net/http] status codes named in the source. *)
Definition StatusBadRequest : Z := 400.
Definition StatusUnauthorized : Z := 401.
Definition StatusInternalServerError : Z := 500.

Definition defaultPriority : Z := 200.

(** ** [strings.Split] with a separator of one byte

    Go strings are byte sequences, as [string] is here.  With a
    separator of one byte [strings.Split s sep] cuts [s] at every
    occurrence of the byte; the result always holds one more piece than
    there are occurrences. *)
Fixpoint Split (s : string) (sep : ascii) : list string :=
  match s with
  | EmptyString => [EmptyString]
  | String c rest =>
      if Ascii.eqb c sep then EmptyString :: Split rest sep
      else match Split rest sep with
           | piece :: pieces => String c piece :: pieces
           | [] => [String c EmptyString]
           end
  end.

(** [strings.Count s sep] for a separator of one byte. *)
Fixpoint Count (s : string) (sep : ascii) : nat :=
  match s with
  | EmptyString => O
  | String c rest => if Ascii.eqb c sep then S (Count rest sep) else Count rest sep
  end.

(** Modelled from the spec: [router.ShiftPath] is not among the sources;
    the spec describes its head as the first path segment of the request
    URL.  This is the split it performs on a path that is already clean:
    the leading slashes are dropped, the head runs up to the next slash
    and the tail is what follows, or ["/"] when nothing does.  The
    handler below takes [ShiftPath] as a parameter; this instance serves
    the concrete runs. *)
Fixpoint shiftSegment (p : string) : string * string :=
  match p with
  | EmptyString => (EmptyString, "/")
  | String c rest =>
      if Ascii.eqb c "/" then (EmptyString, p)
      else let '(head, tail) := shiftSegment rest in (String c head, tail)
  end.

Fixpoint firstSegment (p : string) : string * string :=
  match p with
  | EmptyString => (EmptyString, "/")
  | String c rest =>
      if Ascii.eqb c "/" then firstSegment rest else shiftSegment p
  end.

Section Middleware.

(** [context.Context], carried by the request. *)
Context {Ctx : Type}.
(** The [interface{}] values of a driver's settings bag. *)
Context {Value : Type}.
(** The state of the external services (user directory, provider
    registries) at the time a request is served: what the answers of
    the gateway client and of the authorizer may depend on besides
    their arguments. *)
Context {Upstream : Type}.

(** *** Collaborator interfaces *)

(** The fields of [userpb.User] the handler reads. *)
Record User := { Username : string; Mail : string }.

Record FindUsersRequest := { Filter : string }.

(** [GetUsers()] of the response. *)
Record FindUsersResponse := { GetUsers : list User }.

(** The gateway client, as far as the handler uses it. *)
Record GatewayAPIClient := {
  FindUsers : Ctx -> FindUsersRequest -> result FindUsersResponse
}.

(** [provider.Authorizer]: one method, [nil] error when the provider
    is allowed. *)
Record Authorizer := {
  IsProviderAllowed : Upstream -> Ctx -> string -> option error
}.

(** [registry.NewFunc]: a factory from a settings bag. *)
Definition NewFunc : Type := gmap string Value -> result Authorizer.

(** What the handler observes of [*http.Request]: its context, the URL
    path and the result of [r.BasicAuth()] ([None] when [ok] is
    false, the user name and password otherwise). *)
Record Request := {
  Context_ : Ctx;
  URL_Path : string;
  BasicAuth : option (string * string)
}.

Record config := {
  Driver : string;
  Drivers : gmap string (gmap string Value);
  OCMPrefix : string;
  GatewaySvc : string
}.

(** *** Functions of other packages, taken as parameters *)

(** [registry.NewFuncs], the process-wide table of factories. *)
Variable NewFuncs : gmap string NewFunc.
(** [mapstructure.Decode] into a fresh [config], from a raw
    configuration of type [RawConfig]. *)
Context {RawConfig : Type}.
Variable Decode : RawConfig -> result config.
(** [sharedconf.GetGatewaySVC]. *)
Variable GetGatewaySVC : string -> string.
(** [router.ShiftPath]. *)
Variable ShiftPath : string -> string * string.
(** [pool.GetGatewayServiceClient]. *)
Variable pool_GetGatewayServiceClient : Upstream -> string -> result GatewayAPIClient.

(** *** [getDriver] *)

(** Indexing the Go map [c.Drivers] at an absent key yields the nil
    map, which reads as the empty one. *)
Definition getDriver (c : config) : result Authorizer :=
  match NewFuncs !! Driver c with
  | Some f => f (Drivers c !!! Driver c)
  | None => Err ("driver " +:+ Driver c +:+ " not found for provider authorizer")
  end.

(** *** The handler's effects *)

(** What a run of the handler does to the outside, in order: log
    lines, calls to the response writer, to the next handler and to
    the collaborators. *)
Inductive Event :=
| LogInfo (msg : string)
| LogError (err : option error) (msg : string)
| ServeHTTP (r : Request)
| WriteHeader (code : Z)
| GetGatewayServiceClient (addr : string)
| CallFindUsers (ctx : Ctx) (req : FindUsersRequest)
| CallIsProviderAllowed (ctx : Ctx) (domain : string).

(** The variables of [New] that the handler closure captures.  Go
    captures them by reference, so an assignment in the handler would
    be seen by every later request. *)
Record Closure := {
  conf : config;
  authorizer : Authorizer;
  err : option error
}.

Record State := {
  vars : Closure;
  trace : list Event
}.

Definition M (A : Type) : Type := State -> Flow A * State.

Definition ret {A} (a : A) : M A := fun s => (Next a, s).

Definition bind {A B} (m : M A) (k : A -> M B) : M B :=
  fun s =>
    match m s with
    | (Next a, s') => k a s'
    | (Returned, s') => (Returned, s')
    | (Panicked msg, s') => (Panicked msg, s')
    end.

Definition return_ {A} : M A := fun s => (Returned, s).
Definition panic {A} (msg : string) : M A := fun s => (Panicked msg, s).

Definition emit (e : Event) : M unit :=
  fun s => (Next tt, {| vars := vars s; trace := trace s ++ [e] |}).

(** Reading a captured variable. *)
Definition captured {A} (field : Closure -> A) : M A :=
  fun s => (Next (field (vars s)), s).

(** [if b { body }]. *)
Definition when (b : bool) (body : M unit) : M unit :=
  if b then body else ret tt.

#[local] Instance M_ret : MRet M := @ret.
#[local] Instance M_bind : MBind M := fun A B k m => bind m k.

(** *** The request handler

    [userAuth] is a [*userpb.User] that stays [nil] unless a candidate
    matches; the loop stops at the first match. *)
Fixpoint selectUser (users : list User) (username : string)
    (userAuth : option User) : option User :=
  match users with
  | [] => userAuth
  | user :: rest =>
      if String.eqb (Username user) username then Some user
      else selectUser rest username userAuth
  end.

(** The function that [New] returns, applied to the next handler [h];
    the call [h.ServeHTTP(w, r)] is the event [ServeHTTP r].  From
    [gatewayClient, err := ...] on, [err] is a variable of the handler's
    own, not the captured one. *)
Definition handler (u : Upstream) (r : Request) : M unit :=
  let ctx := Context_ r in
  conf ← captured conf;
  let '(head, _) := ShiftPath (URL_Path r) in
  when (negb (String.eqb head (OCMPrefix conf)))
    (emit (LogInfo ("skipping provider authorizer check for: " +:+ URL_Path r));;
     emit (ServeHTTP r);;
     return_);;
  username ←
    match BasicAuth r with
    | Some (username, _) => ret username
    | None =>
        err ← captured err;
        emit (LogError err "no basic auth provided");;
        emit (WriteHeader StatusUnauthorized);;
        return_
    end;
  emit (GetGatewayServiceClient (GatewaySvc conf));;
  gatewayClient ←
    match pool_GetGatewayServiceClient u (GatewaySvc conf) with
    | Ok client => ret client
    | Err err =>
        emit (LogError (Some err) "error getting the grpc client");;
        emit (WriteHeader StatusInternalServerError);;
        return_
    end;
  emit (CallFindUsers ctx {| Filter := username |});;
  userRes ←
    match FindUsers gatewayClient ctx {| Filter := username |} with
    | Ok res => ret res
    | Err err =>
        emit (LogError (Some err) "error searching for the user");;
        emit (WriteHeader StatusInternalServerError);;
        return_
    end;
  let userAuth := selectUser (GetUsers userRes) username None in
  mail ←
    match userAuth with
    | Some user => ret (Mail user)
    | None => panic "invalid memory address or nil pointer dereference"
    end;
  let domainSplit := Split mail "@" in
  when (negb (Nat.eqb (length domainSplit) 2))
    (emit (LogError None "user mail must contain domain");;
     emit (WriteHeader StatusBadRequest);;
     return_);;
  domain ←
    match domainSplit !! 1%nat with
    | Some domain => ret domain
    | None => panic "index out of range"
    end;
  authorizer ← captured authorizer;
  emit (CallIsProviderAllowed ctx domain);;
  match IsProviderAllowed authorizer u ctx domain with
  | Some err =>
      emit (LogError (Some err) "provider not registered in OCM");;
      emit (WriteHeader StatusUnauthorized);;
      return_
  | None => ret tt
  end;;
  emit (ServeHTTP r).

(** *** [New] *)

(** [New] returns the handler closure with a priority, or an error and
    no handler. *)
Definition New (m : RawConfig) : result (Closure * Z) :=
  match Decode m with
  | Err err => Err err
  | Ok conf =>
      let conf := {| Driver := Driver conf;
                     Drivers := Drivers conf;
                     OCMPrefix := OCMPrefix conf;
                     GatewaySvc := GetGatewaySVC (GatewaySvc conf) |} in
      let conf := if String.eqb (OCMPrefix conf) ""
                  then {| Driver := Driver conf;
                          Drivers := Drivers conf;
                          OCMPrefix := "ocm";
                          GatewaySvc := GatewaySvc conf |}
                  else conf in
      match getDriver conf with
      | Err err => Err err
      | Ok authorizer =>
          Ok ({| conf := conf; authorizer := authorizer; err := None |},
              defaultPriority)
      end
  end.

(** One request served by the closure: the handler run from an empty
    trace. *)
Definition serve (clo : Closure) (u : Upstream) (r : Request) : Flow unit * State :=
  handler u r {| vars := clo; trace := [] |}.

(** Requests served one after the other by the same closure: each run
    starts from the captured variables as the previous one left them. *)
Fixpoint serveAll (clo : Closure) (reqs : list (Upstream * Request))
    : list (Flow unit * list Event) :=
  match reqs with
  | [] => []
  | (u, r) :: rest =>
      let '(flow, s) := serve clo u r in
      (flow, trace s) :: serveAll (vars s) rest
  end.

(** *** Observations on a trace *)

(** The status codes written to the response, in order. *)
Fixpoint statusCodes (t : list Event) : list Z :=
  match t with
  | [] => []
  | WriteHeader code :: t' => code :: statusCodes t'
  | _ :: t' => statusCodes t'
  end.

(** The requests handed to the next handler. *)
Fixpoint forwarded (t : list Event) : list Request :=
  match t with
  | [] => []
  | ServeHTTP r :: t' => r :: forwarded t'
  | _ :: t' => forwarded t'
  end.

(** The calls made for identity resolution: acquiring the gateway
    client and querying it. *)
Fixpoint identityCalls (t : list Event) : list Event :=
  match t with
  | [] => []
  | GetGatewayServiceClient addr :: t' => GetGatewayServiceClient addr :: identityCalls t'
  | CallFindUsers ctx req :: t' => CallFindUsers ctx req :: identityCalls t'
  | _ :: t' => identityCalls t'
  end.

(** The domains the authorizer was asked about. *)
Fixpoint authorizerCalls (t : list Event) : list string :=
  match t with
  | [] => []
  | CallIsProviderAllowed _ domain :: t' => domain :: authorizerCalls t'
  | _ :: t' => authorizerCalls t'
  end.

(** *** Where a request gets to *)

(** The activation check lets the request in. *)
Definition underPrefix (clo : Closure) (r : Request) : Prop :=
  fst (ShiftPath (URL_Path r)) = OCMPrefix (conf clo).

(** The request is under the prefix, carries the user name [username]
    and the identity lookup for it answered with [users]. *)
Definition lookupAnswers (clo : Closure) (u : Upstream) (r : Request)
    (username : string) (users : list User) : Prop :=
  underPrefix clo r /\
  exists password client res,
    BasicAuth r = Some (username, password) /\
    pool_GetGatewayServiceClient u (GatewaySvc (conf clo)) = Ok client /\
    FindUsers client (Context_ r) {| Filter := username |} = Ok res /\
    GetUsers res = users.

(** The request reaches domain extraction with [user] selected: [user]
    is the first candidate of the answer whose user name is the one of
    the request. *)
Definition reachesDomainExtraction (clo : Closure) (u : Upstream) (r : Request)
    (user : User) : Prop :=
  exists username before after,
    lookupAnswers clo u r username (before ++ user :: after) /\
    Forall (fun candidate => Username candidate <> username) before /\
    Username user = username.

(** The request reaches the authorization decision about [domain]: the
    e-mail of the selected user splits in two at ["@"] and [domain] is
    the second piece. *)
Definition reachesAuthorization (clo : Closure) (u : Upstream) (r : Request)
    (domain : string) : Prop :=
  exists user localPart,
    reachesDomainExtraction clo u r user /\
    Split (Mail user) "@" = [localPart; domain].

(** Two states of the external services in which the identity resolver
    and the authorizer of the closure give the same answers. *)
Definition sameAnswers (clo : Closure) (u1 u2 : Upstream) : Prop :=
  match pool_GetGatewayServiceClient u1 (GatewaySvc (conf clo)),
        pool_GetGatewayServiceClient u2 (GatewaySvc (conf clo)) with
  | Ok client1, Ok client2 =>
      forall ctx req, FindUsers client1 ctx req = FindUsers client2 ctx req
  | Err err1, Err err2 => err1 = err2
  | _, _ => False
  end /\
  forall ctx domain,
    IsProviderAllowed (authorizer clo) u1 ctx domain =
    IsProviderAllowed (authorizer clo) u2 ctx domain.

End Middleware.

(** ** A concrete deployment

    A user directory, an allow-list driver and a deny-all driver, used
    for the concrete runs below. *)

(** The state of the user directory: the gateway cannot be reached, the
    lookup fails, or it answers with the users it holds. *)
Inductive Directory :=
| Unreachable (err : error)
| Failing (err : error)
| Serving (users : list User).

Definition directoryPool (d : Directory) (addr : string)
    : result (@GatewayAPIClient unit) :=
  match d with
  | Unreachable err => Err err
  | Failing err => Ok {| FindUsers := fun _ _ => Err err |}
  | Serving users => Ok {| FindUsers := fun _ _ => Ok {| GetUsers := users |} |}
  end.

(** An authorizer that allows the domains of a list. *)
Definition listAuthorizer (allowed : list string) : @Authorizer unit Directory :=
  {| IsProviderAllowed := fun _ _ domain =>
       if existsb (String.eqb domain) allowed then None
       else Some "provider not authorized" |}.

(** The factory of the list driver reads the allowed domains from its
    settings bag. *)
Definition listDriver : @NewFunc unit (list string) Directory :=
  fun bag => Ok (listAuthorizer (default [] (bag !! "domains"))).

(** A driver whose factory fails. *)
Definition brokenDriver : @NewFunc unit (list string) Directory :=
  fun _ => Err "cannot reach the registry".

Definition sampleFuncs : gmap string (@NewFunc unit (list string) Directory) :=
  <["list" := listDriver]> (<["broken" := brokenDriver]> ∅).

Definition sampleConfig (driver : string) : @config (list string) :=
  {| Driver := driver;
     Drivers := <["list" := <["domains" := ["example.org"]]> ∅]> ∅;
     OCMPrefix := "";
     GatewaySvc := "" |}.

Definition sampleGatewaySVC (addr : string) : string :=
  if String.eqb addr "" then "localhost:19000" else addr.

Definition sampleClosure : @Closure unit (list string) Directory :=
  {| conf := {| Driver := "list";
                Drivers := <["list" := <["domains" := ["example.org"]]> ∅]> ∅;
                OCMPrefix := "ocm";
                GatewaySvc := "localhost:19000" |};
     authorizer := listAuthorizer ["example.org"];
     err := None |}.

Definition sampleRequest (path : string) (auth : option (string * string))
    : @Request unit :=
  {| Context_ := tt; URL_Path := path; BasicAuth := auth |}.

Definition alice : User := {| Username := "alice"; Mail := "alice@example.org" |}.
Definition bob : User := {| Username := "bob"; Mail := "bob@badcorp.com" |}.
Definition carol : User := {| Username := "carol"; Mail := "nodomain" |}.
Definition dave : User := {| Username := "dave"; Mail := "@example.org" |}.
Definition erin : User := {| Username := "erin"; Mail := "erin@" |}.

Definition sampleUsers : list User := [alice; bob; carol; dave; erin].

Definition sampleServe (d : Directory) (r : @Request unit) :=
  serve firstSegment directoryPool sampleClosure d r.

(** A request for the shares of the protected surface, with the
    credentials of [username]. *)
Definition requestOf (username : string) : @Request unit :=
  sampleRequest "/ocm/shares" (Some (username, "secret")).

(** * Properties *)

Ltac unfold_monad :=
  unfold mbind, M_bind, bind, captured, when, emit, return_, panic, mret, M_ret, ret.

Ltac enter_handler :=
  unfold serve, handler; unfold_monad; cbn [vars trace app].

Ltac unfold_reach :=
  unfold reachesAuthorization, reachesDomainExtraction, lookupAnswers, underPrefix.

Ltac unfold_New := unfold New, getDriver.

Section Properties.

Context {Ctx Value Upstream : Type}.
Variable ShiftPath : string -> string * string.
Variable pool_GetGatewayServiceClient :
  Upstream -> string -> result (@GatewayAPIClient Ctx).

Local Abbreviation Closure := (@Closure Ctx Value Upstream).
Local Abbreviation serve := (serve ShiftPath pool_GetGatewayServiceClient).
Local Abbreviation underPrefix := (underPrefix ShiftPath).
Local Abbreviation lookupAnswers := (lookupAnswers ShiftPath pool_GetGatewayServiceClient).
Local Abbreviation reachesDomainExtraction :=
  (reachesDomainExtraction ShiftPath pool_GetGatewayServiceClient).
Local Abbreviation reachesAuthorization :=
  (reachesAuthorization ShiftPath pool_GetGatewayServiceClient).

(** ** The pieces of [strings.Split] *)

Lemma Split_length (s : string) (sep : ascii) :
  length (Split s sep) = S (Count s sep).
Proof.
  induction s as [|c rest IH]; cbn [Split Count]; [reflexivity|].
  destruct (Ascii.eqb c sep); cbn [length]; [now rewrite IH|].
  destruct (Split rest sep) as [|piece pieces]; [discriminate IH|exact IH].
Qed.

(** The split yields exactly two pieces when the separator occurs
    exactly once. *)
Lemma Split_two_pieces (s : string) (sep : ascii) :
  length (Split s sep) = 2%nat <-> Count s sep = 1%nat.
Proof. rewrite Split_length. lia. Qed.

Example Split_alice : Split "alice@example.org" "@" = ["alice"; "example.org"].
Proof. reflexivity. Qed.

Example Split_nodomain : Split "nodomain" "@" = ["nodomain"].
Proof. reflexivity. Qed.

Example Split_two_separators : Split "a@b@c" "@" = ["a"; "b"; "c"].
Proof. reflexivity. Qed.

Example Split_empty_pieces :
  Split "@example.org" "@" = [""; "example.org"] /\ Split "erin@" "@" = ["erin"; ""].
Proof. split; reflexivity. Qed.

Example firstSegment_ocm : firstSegment "/ocm/shares" = ("ocm", "/shares").
Proof. reflexivity. Qed.

(** ** The selection loop *)

Lemma selectUser_none (users : list User) (username : string) :
  Forall (fun candidate => Username candidate <> username) users ->
  selectUser users username None = None.
Proof.
  induction 1 as [|user rest Hne _ IH]; cbn [selectUser]; [reflexivity|].
  apply String.eqb_neq in Hne. now rewrite Hne.
Qed.

Lemma selectUser_first (before after : list User) (user : User) (username : string) :
  Forall (fun candidate => Username candidate <> username) before ->
  Username user = username ->
  selectUser (before ++ user :: after) username None = Some user.
Proof.
  intros Hbefore Huser.
  induction Hbefore as [|other rest Hne _ IH]; cbn [selectUser app].
  - apply String.eqb_eq in Huser. now rewrite Huser.
  - apply String.eqb_neq in Hne. now rewrite Hne.
Qed.

(** ** One lemma per path through the handler *)

Lemma serve_skip (clo : Closure) (u : Upstream) (r : Request) :
  ~ underPrefix clo r ->
  serve clo u r =
    (Returned,
     {| vars := clo;
        trace := [LogInfo ("skipping provider authorizer check for: " +:+ URL_Path r);
                  ServeHTTP r] |}).
Proof.
  unfold_reach. intros Hskip. enter_handler.
  destruct (ShiftPath (URL_Path r)) as [head tail]. cbn [fst] in Hskip.
  apply String.eqb_neq in Hskip. rewrite Hskip. reflexivity.
Qed.

Lemma serve_no_credentials (clo : Closure) (u : Upstream) (r : Request) :
  underPrefix clo r ->
  BasicAuth r = None ->
  serve clo u r =
    (Returned,
     {| vars := clo;
        trace := [LogError (err clo) "no basic auth provided";
                  WriteHeader StatusUnauthorized] |}).
Proof.
  unfold_reach. intros Hin Hauth. enter_handler.
  destruct (ShiftPath (URL_Path r)) as [head tail]. cbn [fst] in Hin.
  subst head. rewrite String.eqb_refl, Hauth. reflexivity.
Qed.

Lemma serve_no_client (clo : Closure) (u : Upstream) (r : Request)
    (username password : string) (e : error) :
  underPrefix clo r ->
  BasicAuth r = Some (username, password) ->
  pool_GetGatewayServiceClient u (GatewaySvc (conf clo)) = Err e ->
  serve clo u r =
    (Returned,
     {| vars := clo;
        trace := [GetGatewayServiceClient (GatewaySvc (conf clo));
                  LogError (Some e) "error getting the grpc client";
                  WriteHeader StatusInternalServerError] |}).
Proof.
  unfold_reach. intros Hin Hauth Hpool. enter_handler.
  destruct (ShiftPath (URL_Path r)) as [head tail]. cbn [fst] in Hin.
  subst head. rewrite String.eqb_refl, Hauth. cbn. rewrite Hpool. reflexivity.
Qed.

Lemma serve_lookup_error (clo : Closure) (u : Upstream) (r : Request)
    (username password : string) (client : GatewayAPIClient) (e : error) :
  underPrefix clo r ->
  BasicAuth r = Some (username, password) ->
  pool_GetGatewayServiceClient u (GatewaySvc (conf clo)) = Ok client ->
  FindUsers client (Context_ r) {| Filter := username |} = Err e ->
  serve clo u r =
    (Returned,
     {| vars := clo;
        trace := [GetGatewayServiceClient (GatewaySvc (conf clo));
                  CallFindUsers (Context_ r) {| Filter := username |};
                  LogError (Some e) "error searching for the user";
                  WriteHeader StatusInternalServerError] |}).
Proof.
  unfold_reach. intros Hin Hauth Hpool Hfind. enter_handler.
  destruct (ShiftPath (URL_Path r)) as [head tail]. cbn [fst] in Hin.
  subst head. rewrite String.eqb_refl, Hauth. cbn. rewrite Hpool. cbn.
  rewrite Hfind. reflexivity.
Qed.

(** What is left of the handler once the lookup has answered. *)
Lemma serve_lookup (clo : Closure) (u : Upstream) (r : Request)
    (username : string) (users : list User) :
  lookupAnswers clo u r username users ->
  serve clo u r =
    let lookup := [GetGatewayServiceClient (GatewaySvc (conf clo));
                   CallFindUsers (Context_ r) {| Filter := username |}] in
    match selectUser users username None with
    | None =>
        (Panicked "invalid memory address or nil pointer dereference",
         {| vars := clo; trace := lookup |})
    | Some user =>
        match Split (Mail user) "@" with
        | [_; domain] =>
            match IsProviderAllowed (authorizer clo) u (Context_ r) domain with
            | Some e =>
                (Returned,
                 {| vars := clo;
                    trace := lookup ++
                      [CallIsProviderAllowed (Context_ r) domain;
                       LogError (Some e) "provider not registered in OCM";
                       WriteHeader StatusUnauthorized] |})
            | None =>
                (Next tt,
                 {| vars := clo;
                    trace := lookup ++
                      [CallIsProviderAllowed (Context_ r) domain; ServeHTTP r] |})
            end
        | _ =>
            (Returned,
             {| vars := clo;
                trace := lookup ++
                  [LogError None "user mail must contain domain";
                   WriteHeader StatusBadRequest] |})
        end
    end.
Proof.
  unfold_reach.
  intros [Hin (password & client & res & Hauth & Hpool & Hfind & Husers)].
  enter_handler.
  destruct (ShiftPath (URL_Path r)) as [head tail]. cbn [fst] in Hin.
  subst head. rewrite String.eqb_refl, Hauth. cbn. rewrite Hpool. cbn.
  rewrite Hfind. cbn. rewrite Husers.
  destruct (selectUser users username None) as [user|]; [|reflexivity].
  cbn. destruct (Split (Mail user) "@") as [|piece1 [|piece2 [|piece3 pieces]]];
    try reflexivity.
  cbn. destruct (IsProviderAllowed (authorizer clo) u (Context_ r) piece2);
    reflexivity.
Qed.

(** The handler assigns to none of the captured variables. *)
Lemma serve_vars (clo : Closure) (u : Upstream) (r : Request) :
  vars (snd (serve clo u r)) = clo.
Proof.
  enter_handler.
  destruct (ShiftPath (URL_Path r)) as [head tail].
  destruct (String.eqb head (OCMPrefix (conf clo))); [|reflexivity].
  destruct (BasicAuth r) as [[username password]|]; [|reflexivity]. cbn.
  destruct (pool_GetGatewayServiceClient u (GatewaySvc (conf clo)))
    as [client|e]; [|reflexivity]. cbn.
  destruct (FindUsers client (Context_ r) {| Filter := username |})
    as [res|e]; [|reflexivity]. cbn.
  destruct (selectUser (GetUsers res) username None) as [user|]; [|reflexivity].
  cbn. destruct (Split (Mail user) "@") as [|piece1 [|piece2 [|piece3 pieces]]];
    try reflexivity.
  cbn. destruct (IsProviderAllowed (authorizer clo) u (Context_ r) piece2);
    reflexivity.
Qed.

(** What a run shows to the outside depends on the external services
    only through the answers they give. *)
Lemma serve_sameAnswers (clo : Closure) (u1 u2 : Upstream) (r : Request) :
  sameAnswers pool_GetGatewayServiceClient clo u1 u2 ->
  (fst (serve clo u1 r), trace (snd (serve clo u1 r))) =
  (fst (serve clo u2 r), trace (snd (serve clo u2 r))).
Proof.
  unfold sameAnswers. intros [Hpool Hauthz]. enter_handler.
  destruct (ShiftPath (URL_Path r)) as [head tail].
  destruct (String.eqb head (OCMPrefix (conf clo))); [|reflexivity].
  destruct (BasicAuth r) as [[username password]|]; [|reflexivity]. cbn.
  destruct (pool_GetGatewayServiceClient u1 (GatewaySvc (conf clo)))
    as [client1|e1],
    (pool_GetGatewayServiceClient u2 (GatewaySvc (conf clo)))
    as [client2|e2]; try contradiction; [|now subst e2].
  cbn. rewrite Hpool.
  destruct (FindUsers client2 (Context_ r) {| Filter := username |})
    as [res|e]; [|reflexivity]. cbn.
  destruct (selectUser (GetUsers res) username None) as [user|]; [|reflexivity].
  cbn. destruct (Split (Mail user) "@") as [|piece1 [|piece2 [|piece3 pieces]]];
    try reflexivity.
  cbn. rewrite Hauthz.
  destruct (IsProviderAllowed (authorizer clo) u2 (Context_ r) piece2);
    reflexivity.
Qed.

(** In a sequence of requests every one is served as if it were the
    first. *)
Lemma serveAll_lookup (clo : Closure) (reqs : list (Upstream * Request))
    (i : nat) (u : Upstream) (r : Request) :
  reqs !! i = Some (u, r) ->
  serveAll ShiftPath pool_GetGatewayServiceClient clo reqs !! i =
    Some (fst (serve clo u r), trace (snd (serve clo u r))).
Proof.
  revert i. induction reqs as [|[u0 r0] rest IH]; intros i Hi; [discriminate Hi|].
  cbn [serveAll].
  pose proof (serve_vars clo u0 r0) as Hvars.
  destruct (serve clo u0 r0) as [flow s] eqn:Hrun. cbn [snd] in Hvars.
  destruct i as [|i]; cbn in Hi |- *.
  - injection Hi as -> ->. now rewrite Hrun.
  - rewrite Hvars. now apply IH.
Qed.

(** ** The request decision flow *)

(** C1: when the identity lookup succeeds but no candidate carries the
    user name of the request, the handler does not answer 401: it reads
    the e-mail of the [nil] user and panics, having written no status
    and called neither the authorizer nor the next handler. *)
Theorem no_exact_match_panics (clo : Closure) (u : Upstream) (r : Request)
    (username : string) (users : list User) :
  lookupAnswers clo u r username users ->
  Forall (fun candidate => Username candidate <> username) users ->
  fst (serve clo u r) = Panicked "invalid memory address or nil pointer dereference" /\
  statusCodes (trace (snd (serve clo u r))) = [] /\
  authorizerCalls (trace (snd (serve clo u r))) = [] /\
  forwarded (trace (snd (serve clo u r))) = [].
Proof.
  intros Hlookup Hnone. rewrite (serve_lookup _ _ _ _ _ Hlookup).
  rewrite (selectUser_none _ _ Hnone). cbn. repeat split.
Qed.

(** C2, as amended: for every request that reaches domain extraction,
    when splitting the e-mail of the selected user at ["@"] does not
    yield exactly two pieces, the handler answers 400 and returns
    without asking the authorizer or calling the next handler. *)
Theorem malformed_mail_is_bad_request (clo : Closure) (u : Upstream) (r : Request)
    (user : User) :
  reachesDomainExtraction clo u r user ->
  length (Split (Mail user) "@") <> 2%nat ->
  fst (serve clo u r) = Returned /\
  statusCodes (trace (snd (serve clo u r))) = [StatusBadRequest] /\
  authorizerCalls (trace (snd (serve clo u r))) = [] /\
  forwarded (trace (snd (serve clo u r))) = [].
Proof.
  intros (username & before & after & Hlookup & Hbefore & Huser) Hsplit.
  rewrite (serve_lookup _ _ _ _ _ Hlookup).
  rewrite (selectUser_first _ _ _ _ Hbefore Huser). cbn zeta.
  destruct (Split (Mail user) "@") as [|piece1 [|piece2 [|piece3 pieces]]];
    cbn; try (repeat split; fail).
  now contradict Hsplit.
Qed.

(** C3: a request whose first path segment is not the configured prefix
    is handed to the next handler as it came, and the handler makes no
    identity-resolution call and no authorizer call and writes no
    status itself. *)
Theorem other_paths_pass_through (clo : Closure) (u : Upstream) (r : Request) :
  ~ underPrefix clo r ->
  fst (serve clo u r) = Returned /\
  forwarded (trace (snd (serve clo u r))) = [r] /\
  identityCalls (trace (snd (serve clo u r))) = [] /\
  authorizerCalls (trace (snd (serve clo u r))) = [] /\
  statusCodes (trace (snd (serve clo u r))) = [].
Proof.
  intros Hskip. rewrite (serve_skip _ _ _ Hskip). cbn. repeat split.
Qed.

(** C4: a request under the prefix without Basic Auth credentials is
    answered 401 and the next handler is not called. *)
Theorem missing_credentials_unauthorized (clo : Closure) (u : Upstream) (r : Request) :
  underPrefix clo r ->
  BasicAuth r = None ->
  fst (serve clo u r) = Returned /\
  statusCodes (trace (snd (serve clo u r))) = [StatusUnauthorized] /\
  forwarded (trace (snd (serve clo u r))) = [].
Proof.
  intros Hin Hauth. rewrite (serve_no_credentials _ _ _ Hin Hauth). cbn.
  repeat split.
Qed.

(** C5: when the identity-resolution call of a request under the prefix
    with credentials returns an error, the handler answers 500 and
    returns, and the next handler is not called. *)
Theorem lookup_error_internal_error (clo : Closure) (u : Upstream) (r : Request)
    (username password : string) (client : GatewayAPIClient) (e : error) :
  underPrefix clo r ->
  BasicAuth r = Some (username, password) ->
  pool_GetGatewayServiceClient u (GatewaySvc (conf clo)) = Ok client ->
  FindUsers client (Context_ r) {| Filter := username |} = Err e ->
  fst (serve clo u r) = Returned /\
  statusCodes (trace (snd (serve clo u r))) = [StatusInternalServerError] /\
  forwarded (trace (snd (serve clo u r))) = [].
Proof.
  intros Hin Hauth Hpool Hfind.
  rewrite (serve_lookup_error _ _ _ _ _ _ _ Hin Hauth Hpool Hfind). cbn.
  repeat split.
Qed.

(** C6: when a request reaches the authorization decision and
    [IsProviderAllowed] returns an error, whatever the error, the
    handler answers 401 and the next handler is not called. *)
Theorem authorizer_error_unauthorized (clo : Closure) (u : Upstream) (r : Request)
    (domain : string) (e : error) :
  reachesAuthorization clo u r domain ->
  IsProviderAllowed (authorizer clo) u (Context_ r) domain = Some e ->
  fst (serve clo u r) = Returned /\
  statusCodes (trace (snd (serve clo u r))) = [StatusUnauthorized] /\
  forwarded (trace (snd (serve clo u r))) = [].
Proof.
  intros (user & localPart & Hreach & Hsplit) Hdenied.
  destruct Hreach as (username & before & after & Hlookup & Hbefore & Huser).
  rewrite (serve_lookup _ _ _ _ _ Hlookup).
  rewrite (selectUser_first _ _ _ _ Hbefore Huser). cbn zeta.
  rewrite Hsplit, Hdenied. cbn. repeat split.
Qed.

(** C7: when the selected user has the e-mail ["alice@example.org"] and
    the authorizer allows ["example.org"], the authorizer is asked about
    exactly ["example.org"], the next handler is called with the request
    as it came, and the handler writes no status of its own. *)
Theorem allowed_domain_is_forwarded (clo : Closure) (u : Upstream) (r : Request)
    (user : User) :
  reachesDomainExtraction clo u r user ->
  Mail user = "alice@example.org" ->
  IsProviderAllowed (authorizer clo) u (Context_ r) "example.org" = None ->
  fst (serve clo u r) = Next tt /\
  authorizerCalls (trace (snd (serve clo u r))) = ["example.org"] /\
  forwarded (trace (snd (serve clo u r))) = [r] /\
  statusCodes (trace (snd (serve clo u r))) = [].
Proof.
  intros (username & before & after & Hlookup & Hbefore & Huser) Hmail Hallowed.
  rewrite (serve_lookup _ _ _ _ _ Hlookup).
  rewrite (selectUser_first _ _ _ _ Hbefore Huser). cbn zeta.
  rewrite Hmail. cbn [Split Ascii.eqb Bool.eqb]. rewrite Hallowed. cbn.
  repeat split.
Qed.

(** C9: in any sequence of requests served by one closure, two requests
    that are identical and meet identical answers from the identity
    resolver and the authorizer end the same way, with the same events
    and so the same status code: nothing carries over from one request
    to a later one. *)
Theorem handler_is_deterministic (clo : Closure) (reqs : list (Upstream * Request))
    (i j : nat) (u1 u2 : Upstream) (r : Request) :
  reqs !! i = Some (u1, r) ->
  reqs !! j = Some (u2, r) ->
  sameAnswers pool_GetGatewayServiceClient clo u1 u2 ->
  exists flow t,
    serveAll ShiftPath pool_GetGatewayServiceClient clo reqs !! i = Some (flow, t) /\
    serveAll ShiftPath pool_GetGatewayServiceClient clo reqs !! j = Some (flow, t).
Proof.
  intros Hi Hj Hsame.
  exists (fst (serve clo u2 r)), (trace (snd (serve clo u2 r))).
  rewrite (serveAll_lookup _ _ _ _ _ Hi), (serveAll_lookup _ _ _ _ _ Hj).
  now rewrite (serve_sameAnswers _ _ _ r Hsame).
Qed.

(** C10: for a request under the prefix with credentials the first
    thing the handler does is acquire the gateway client, before any
    lookup; when that fails it answers 500 without querying the
    identity resolver or calling the next handler. *)
Theorem client_acquired_per_request (clo : Closure) (u : Upstream) (r : Request)
    (username password : string) :
  underPrefix clo r ->
  BasicAuth r = Some (username, password) ->
  (exists rest,
     trace (snd (serve clo u r)) =
       GetGatewayServiceClient (GatewaySvc (conf clo)) :: rest) /\
  (forall e,
     pool_GetGatewayServiceClient u (GatewaySvc (conf clo)) = Err e ->
     fst (serve clo u r) = Returned /\
     statusCodes (trace (snd (serve clo u r))) = [StatusInternalServerError] /\
     identityCalls (trace (snd (serve clo u r))) =
       [GetGatewayServiceClient (GatewaySvc (conf clo))] /\
     forwarded (trace (snd (serve clo u r))) = []).
Proof.
  intros Hin Hauth. split.
  - destruct (pool_GetGatewayServiceClient u (GatewaySvc (conf clo)))
      as [client|e] eqn:Hpool.
    + destruct (FindUsers client (Context_ r) {| Filter := username |})
        as [res|e] eqn:Hfind.
      * assert (Hlookup : lookupAnswers clo u r username (GetUsers res)).
        { split; [exact Hin|]. now exists password, client, res. }
        rewrite (serve_lookup _ _ _ _ _ Hlookup). cbn zeta.
        destruct (selectUser (GetUsers res) username None) as [user|];
          [|eexists; reflexivity].
        destruct (Split (Mail user) "@") as [|piece1 [|piece2 [|piece3 pieces]]];
          try (eexists; reflexivity).
        destruct (IsProviderAllowed (authorizer clo) u (Context_ r) piece2);
          eexists; reflexivity.
      * rewrite (serve_lookup_error _ _ _ _ _ _ _ Hin Hauth Hpool Hfind).
        eexists; reflexivity.
    + rewrite (serve_no_client _ _ _ _ _ _ Hin Hauth Hpool).
      eexists; reflexivity.
  - intros e Hpool. rewrite (serve_no_client _ _ _ _ _ _ Hin Hauth Hpool).
    cbn. repeat split.
Qed.

End Properties.

(** ** Construction *)

Section Construction.

Context {Ctx Value Upstream RawConfig : Type}.
Variable NewFuncs : gmap string (@NewFunc Ctx Value Upstream).
Variable Decode : RawConfig -> result (@config Value).
Variable GetGatewaySVC : string -> string.

Local Abbreviation New := (New NewFuncs Decode GetGatewaySVC).

(** Filling the defaults leaves the driver selection alone. *)
Lemma New_getDriver (m : RawConfig) (c : config) :
  Decode m = Ok c ->
  New m =
    match getDriver NewFuncs c with
    | Err e => Err e
    | Ok a =>
        Ok ({| conf := {| Driver := Driver c;
                          Drivers := Drivers c;
                          OCMPrefix := if String.eqb (OCMPrefix c) ""
                                       then "ocm" else OCMPrefix c;
                          GatewaySvc := GetGatewaySVC (GatewaySvc c) |};
               authorizer := a;
               err := None |},
            defaultPriority)
    end.
Proof.
  intros Hdecode. unfold_New. rewrite Hdecode. cbn.
  destruct (String.eqb (OCMPrefix c) ""); cbn;
    destruct (NewFuncs !! Driver c) as [f|]; try reflexivity;
    destruct (f (Drivers c !!! Driver c)); reflexivity.
Qed.

(** C8: when the driver named by the configuration has no factory in
    the registry, [New] returns an error and no handler; when it has
    one, [New] returns what the factory returns for the settings bag of
    that driver: its error, or a handler whose authorizer is the
    factory's output. *)
Theorem driver_resolved_at_construction (m : RawConfig) (c : config) :
  Decode m = Ok c ->
  (NewFuncs !! Driver c = None ->
   New m = Err ("driver " +:+ Driver c +:+ " not found for provider authorizer")) /\
  (forall f, NewFuncs !! Driver c = Some f ->
     match f (Drivers c !!! Driver c) with
     | Ok a => exists clo, New m = Ok (clo, defaultPriority) /\ authorizer clo = a
     | Err e => New m = Err e
     end).
Proof.
  intros Hdecode. rewrite (New_getDriver _ _ Hdecode). unfold getDriver.
  unfold NewFunc in *. split.
  - intros Hnone. now rewrite Hnone.
  - intros f Hsome. rewrite Hsome.
    destruct (f (Drivers c !!! Driver c)) as [a|e]; [|reflexivity].
    eexists. split; reflexivity.
Qed.

End Construction.

(** ** Concrete runs *)

Lemma sample_lookupAnswers (username : string) (users : list User) :
  lookupAnswers firstSegment directoryPool sampleClosure (Serving users)
    (requestOf username) username users.
Proof.
  split; [reflexivity|].
  exists "secret", {| FindUsers := fun _ _ => Ok {| GetUsers := users |} |},
    {| GetUsers := users |}.
  repeat split.
Qed.

Lemma sample_reachesDomainExtraction (before after : list User) (user : User) :
  Forall (fun candidate => Username candidate <> Username user) before ->
  reachesDomainExtraction firstSegment directoryPool sampleClosure
    (Serving (before ++ user :: after)) (requestOf (Username user)) user.
Proof.
  intros Hbefore. exists (Username user), before, after.
  split; [apply sample_lookupAnswers|]. split; [exact Hbefore|reflexivity].
Qed.

Lemma no_exact_match_panics_witness :
  lookupAnswers firstSegment directoryPool sampleClosure (Serving sampleUsers)
    (requestOf "mallory") "mallory" sampleUsers /\
  Forall (fun candidate => Username candidate <> "mallory") sampleUsers /\
  fst (sampleServe (Serving sampleUsers) (requestOf "mallory")) =
    Panicked "invalid memory address or nil pointer dereference" /\
  statusCodes (trace (snd (sampleServe (Serving sampleUsers) (requestOf "mallory")))) = [] /\
  authorizerCalls (trace (snd (sampleServe (Serving sampleUsers) (requestOf "mallory")))) = [] /\
  forwarded (trace (snd (sampleServe (Serving sampleUsers) (requestOf "mallory")))) = [].
Proof.
  split; [apply sample_lookupAnswers|].
  split; [repeat constructor; discriminate|].
  apply (no_exact_match_panics firstSegment directoryPool sampleClosure
           (Serving sampleUsers) (requestOf "mallory") "mallory" sampleUsers).
  - apply sample_lookupAnswers.
  - repeat constructor; discriminate.
Defined.

(** C2, as stated, fails: the e-mail ["@example.org"] has an empty local
    part, yet the request is not answered 400 and the authorizer is
    asked about ["example.org"]. *)
Lemma empty_local_part_reaches_authorizer :
  reachesDomainExtraction firstSegment directoryPool sampleClosure
    (Serving sampleUsers) (requestOf "dave") dave /\
  Split (Mail dave) "@" = [""; "example.org"] /\
  statusCodes (trace (snd (sampleServe (Serving sampleUsers) (requestOf "dave"))))
    <> [StatusBadRequest] /\
  authorizerCalls (trace (snd (sampleServe (Serving sampleUsers) (requestOf "dave"))))
    = ["example.org"].
Proof.
  split.
  { apply (sample_reachesDomainExtraction [alice; bob; carol] [erin] dave).
    repeat constructor; discriminate. }
  split; [reflexivity|]. split; [discriminate|reflexivity].
Qed.

(** An e-mail with an empty domain part also splits in two: the
    authorizer is asked about the empty domain. *)
Example empty_domain_reaches_authorizer :
  authorizerCalls (trace (snd (sampleServe (Serving sampleUsers) (requestOf "erin"))))
    = [""] /\
  statusCodes (trace (snd (sampleServe (Serving sampleUsers) (requestOf "erin"))))
    = [StatusUnauthorized].
Proof. split; reflexivity. Qed.

Lemma malformed_mail_is_bad_request_witness :
  reachesDomainExtraction firstSegment directoryPool sampleClosure
    (Serving sampleUsers) (requestOf "carol") carol /\
  length (Split (Mail carol) "@") <> 2%nat /\
  fst (sampleServe (Serving sampleUsers) (requestOf "carol")) = Returned /\
  statusCodes (trace (snd (sampleServe (Serving sampleUsers) (requestOf "carol"))))
    = [StatusBadRequest] /\
  authorizerCalls (trace (snd (sampleServe (Serving sampleUsers) (requestOf "carol")))) = [] /\
  forwarded (trace (snd (sampleServe (Serving sampleUsers) (requestOf "carol")))) = [].
Proof.
  assert (Hreach : reachesDomainExtraction firstSegment directoryPool sampleClosure
                     (Serving sampleUsers) (requestOf "carol") carol).
  { apply (sample_reachesDomainExtraction [alice; bob] [dave; erin] carol).
    repeat constructor; discriminate. }
  split; [exact Hreach|]. split; [discriminate|].
  apply (malformed_mail_is_bad_request firstSegment directoryPool sampleClosure
           (Serving sampleUsers) (requestOf "carol") carol Hreach).
  discriminate.
Defined.

Lemma other_paths_pass_through_witness :
  ~ underPrefix firstSegment sampleClosure (sampleRequest "/datagateway/file" None) /\
  fst (sampleServe (Serving sampleUsers) (sampleRequest "/datagateway/file" None)) = Returned /\
  forwarded (trace (snd (sampleServe (Serving sampleUsers)
                           (sampleRequest "/datagateway/file" None))))
    = [sampleRequest "/datagateway/file" None] /\
  identityCalls (trace (snd (sampleServe (Serving sampleUsers)
                               (sampleRequest "/datagateway/file" None)))) = [] /\
  authorizerCalls (trace (snd (sampleServe (Serving sampleUsers)
                                 (sampleRequest "/datagateway/file" None)))) = [] /\
  statusCodes (trace (snd (sampleServe (Serving sampleUsers)
                             (sampleRequest "/datagateway/file" None)))) = [].
Proof.
  split; [discriminate|].
  apply (other_paths_pass_through firstSegment directoryPool sampleClosure
           (Serving sampleUsers) (sampleRequest "/datagateway/file" None)).
  discriminate.
Defined.

Lemma missing_credentials_unauthorized_witness :
  underPrefix firstSegment sampleClosure (sampleRequest "/ocm/shares" None) /\
  BasicAuth (sampleRequest "/ocm/shares" None) = None /\
  fst (sampleServe (Serving sampleUsers) (sampleRequest "/ocm/shares" None)) = Returned /\
  statusCodes (trace (snd (sampleServe (Serving sampleUsers)
                             (sampleRequest "/ocm/shares" None))))
    = [StatusUnauthorized] /\
  forwarded (trace (snd (sampleServe (Serving sampleUsers)
                           (sampleRequest "/ocm/shares" None)))) = [].
Proof.
  split; [reflexivity|]. split; [reflexivity|].
  apply (missing_credentials_unauthorized firstSegment directoryPool sampleClosure
           (Serving sampleUsers) (sampleRequest "/ocm/shares" None));
    reflexivity.
Defined.

Lemma lookup_error_internal_error_witness :
  underPrefix firstSegment sampleClosure (requestOf "alice") /\
  BasicAuth (requestOf "alice") = Some ("alice", "secret") /\
  directoryPool (Failing "deadline exceeded") (GatewaySvc (conf sampleClosure)) =
    Ok {| FindUsers := fun _ _ => Err "deadline exceeded" |} /\
  fst (sampleServe (Failing "deadline exceeded") (requestOf "alice")) = Returned /\
  statusCodes (trace (snd (sampleServe (Failing "deadline exceeded") (requestOf "alice"))))
    = [StatusInternalServerError] /\
  forwarded (trace (snd (sampleServe (Failing "deadline exceeded") (requestOf "alice")))) = [].
Proof.
  split; [reflexivity|]. split; [reflexivity|]. split; [reflexivity|].
  apply (lookup_error_internal_error firstSegment directoryPool sampleClosure
           (Failing "deadline exceeded") (requestOf "alice") "alice" "secret"
           {| FindUsers := fun _ _ => Err "deadline exceeded" |} "deadline exceeded");
    reflexivity.
Defined.

Lemma authorizer_error_unauthorized_witness :
  reachesAuthorization firstSegment directoryPool sampleClosure
    (Serving sampleUsers) (requestOf "bob") "badcorp.com" /\
  IsProviderAllowed (authorizer sampleClosure) (Serving sampleUsers) tt "badcorp.com"
    = Some "provider not authorized" /\
  fst (sampleServe (Serving sampleUsers) (requestOf "bob")) = Returned /\
  statusCodes (trace (snd (sampleServe (Serving sampleUsers) (requestOf "bob"))))
    = [StatusUnauthorized] /\
  forwarded (trace (snd (sampleServe (Serving sampleUsers) (requestOf "bob")))) = [].
Proof.
  assert (Hreach : reachesAuthorization firstSegment directoryPool sampleClosure
                     (Serving sampleUsers) (requestOf "bob") "badcorp.com").
  { exists bob, "bob". split; [|reflexivity].
    apply (sample_reachesDomainExtraction [alice] [carol; dave; erin] bob).
    repeat constructor; discriminate. }
  split; [exact Hreach|]. split; [reflexivity|].
  apply (authorizer_error_unauthorized firstSegment directoryPool sampleClosure
           (Serving sampleUsers) (requestOf "bob") "badcorp.com"
           "provider not authorized" Hreach).
  reflexivity.
Defined.

Lemma allowed_domain_is_forwarded_witness :
  reachesDomainExtraction firstSegment directoryPool sampleClosure
    (Serving sampleUsers) (requestOf "alice") alice /\
  Mail alice = "alice@example.org" /\
  IsProviderAllowed (authorizer sampleClosure) (Serving sampleUsers) tt "example.org"
    = None /\
  fst (sampleServe (Serving sampleUsers) (requestOf "alice")) = Next tt /\
  authorizerCalls (trace (snd (sampleServe (Serving sampleUsers) (requestOf "alice"))))
    = ["example.org"] /\
  forwarded (trace (snd (sampleServe (Serving sampleUsers) (requestOf "alice"))))
    = [requestOf "alice"] /\
  statusCodes (trace (snd (sampleServe (Serving sampleUsers) (requestOf "alice")))) = [].
Proof.
  assert (Hreach : reachesDomainExtraction firstSegment directoryPool sampleClosure
                     (Serving sampleUsers) (requestOf "alice") alice).
  { apply (sample_reachesDomainExtraction [] [bob; carol; dave; erin] alice).
    constructor. }
  split; [exact Hreach|]. split; [reflexivity|]. split; [reflexivity|].
  apply (allowed_domain_is_forwarded firstSegment directoryPool sampleClosure
           (Serving sampleUsers) (requestOf "alice") alice Hreach);
    reflexivity.
Defined.

Lemma driver_resolved_at_construction_witness :
  (sampleFuncs !! "list" = Some listDriver /\
   exists clo,
     New sampleFuncs Ok sampleGatewaySVC (sampleConfig "list")
       = Ok (clo, defaultPriority) /\
     authorizer clo = listAuthorizer ["example.org"]) /\
  (sampleFuncs !! "broken" = Some brokenDriver /\
   New sampleFuncs Ok sampleGatewaySVC (sampleConfig "broken")
     = Err "cannot reach the registry") /\
  (sampleFuncs !! "static" = None /\
   New sampleFuncs Ok sampleGatewaySVC (sampleConfig "static")
     = Err "driver static not found for provider authorizer").
Proof.
  split; [split; [reflexivity|]|split; (split; [reflexivity|])].
  - exact (proj2 (driver_resolved_at_construction sampleFuncs Ok sampleGatewaySVC
                    (sampleConfig "list") (sampleConfig "list") eq_refl)
             listDriver eq_refl).
  - exact (proj2 (driver_resolved_at_construction sampleFuncs Ok sampleGatewaySVC
                    (sampleConfig "broken") (sampleConfig "broken") eq_refl)
             brokenDriver eq_refl).
  - exact (proj1 (driver_resolved_at_construction sampleFuncs Ok sampleGatewaySVC
                    (sampleConfig "static") (sampleConfig "static") eq_refl)
             eq_refl).
Defined.

Lemma handler_is_deterministic_witness :
  [(Serving sampleUsers, requestOf "bob");
   (Serving sampleUsers, requestOf "alice");
   (Serving sampleUsers, requestOf "bob")] !! 0%nat
    = Some (Serving sampleUsers, requestOf "bob") /\
  [(Serving sampleUsers, requestOf "bob");
   (Serving sampleUsers, requestOf "alice");
   (Serving sampleUsers, requestOf "bob")] !! 2%nat
    = Some (Serving sampleUsers, requestOf "bob") /\
  sameAnswers directoryPool sampleClosure (Serving sampleUsers) (Serving sampleUsers) /\
  exists flow t,
    serveAll firstSegment directoryPool sampleClosure
      [(Serving sampleUsers, requestOf "bob");
       (Serving sampleUsers, requestOf "alice");
       (Serving sampleUsers, requestOf "bob")] !! 0%nat = Some (flow, t) /\
    serveAll firstSegment directoryPool sampleClosure
      [(Serving sampleUsers, requestOf "bob");
       (Serving sampleUsers, requestOf "alice");
       (Serving sampleUsers, requestOf "bob")] !! 2%nat = Some (flow, t).
Proof.
  assert (Hsame : sameAnswers directoryPool sampleClosure
                    (Serving sampleUsers) (Serving sampleUsers)).
  { split; [intros ctx req|intros ctx domain]; reflexivity. }
  split; [reflexivity|]. split; [reflexivity|]. split; [exact Hsame|].
  apply (handler_is_deterministic firstSegment directoryPool sampleClosure
           [(Serving sampleUsers, requestOf "bob");
            (Serving sampleUsers, requestOf "alice");
            (Serving sampleUsers, requestOf "bob")]
           0%nat 2%nat (Serving sampleUsers) (Serving sampleUsers)
           (requestOf "bob") eq_refl eq_refl Hsame).
Defined.

Lemma client_acquired_per_request_witness :
  underPrefix firstSegment sampleClosure (requestOf "alice") /\
  BasicAuth (requestOf "alice") = Some ("alice", "secret") /\
  directoryPool (Unreachable "connection refused") (GatewaySvc (conf sampleClosure))
    = Err "connection refused" /\
  fst (sampleServe (Unreachable "connection refused") (requestOf "alice")) = Returned /\
  statusCodes (trace (snd (sampleServe (Unreachable "connection refused")
                             (requestOf "alice"))))
    = [StatusInternalServerError] /\
  identityCalls (trace (snd (sampleServe (Unreachable "connection refused")
                               (requestOf "alice"))))
    = [GetGatewayServiceClient "localhost:19000"] /\
  forwarded (trace (snd (sampleServe (Unreachable "connection refused")
                           (requestOf "alice")))) = [].
Proof.
  split; [reflexivity|]. split; [reflexivity|]. split; [reflexivity|].
  exact (proj2 (client_acquired_per_request firstSegment directoryPool sampleClosure
                  (Unreachable "connection refused") (requestOf "alice")
                  "alice" "secret" eq_refl eq_refl)
           "connection refused" eq_refl).
Defined.

(** * Further properties of the handler and of [New] *)

(** ** More on [strings.Split] *)

Lemma Split_nonempty (s : string) (sep : ascii) : Split s sep <> [].
Proof.
  intros Hnil. pose proof (Split_length s sep) as Hlen.
  rewrite Hnil in Hlen. discriminate Hlen.
Qed.

(** A string that splits into one piece is that piece. *)
Lemma Split_one_piece (s piece : string) (sep : ascii) :
  Split s sep = [piece] -> s = piece /\ Count s sep = O.
Proof.
  revert piece. induction s as [|c rest IH]; intros piece; cbn [Split Count].
  - intros [= <-]. now split.
  - destruct (Ascii.eqb c sep).
    + intros [= _ Hrest]. now apply Split_nonempty in Hrest.
    + pose proof (Split_nonempty rest sep) as Hrest.
      destruct (Split rest sep) as [|first pieces]; [contradiction|].
      intros [= <- ->]. destruct (IH first eq_refl) as [-> Hcount]. now split.
Qed.

(** A string that splits into two pieces is the first piece, the
    separator and the second piece, and neither piece holds the
    separator. *)
Lemma Split_two_pieces_inv (s first second : string) (sep : ascii) :
  Split s sep = [first; second] ->
  s = first +:+ String sep second /\ Count first sep = O /\ Count second sep = O.
Proof.
  revert first. induction s as [|c rest IH]; intros first; cbn [Split];
    [discriminate|].
  destruct (Ascii.eqb c sep) eqn:Hc.
  - intros [= <- Hrest]. apply Ascii.eqb_eq in Hc. subst c.
    destruct (Split_one_piece _ _ _ Hrest) as [-> Hcount]. now repeat split.
  - destruct (Split rest sep) as [|piece pieces]; [discriminate|].
    intros [= <- ->]. destruct (IH piece eq_refl) as (-> & Hfirst & Hsecond).
    repeat split; [|exact Hsecond]. cbn [Count]. now rewrite Hc.
Qed.

Lemma Split_no_separator (s : string) (sep : ascii) :
  Count s sep = O -> Split s sep = [s].
Proof.
  induction s as [|c rest IH]; cbn [Split Count]; [reflexivity|].
  destruct (Ascii.eqb c sep); [discriminate|]. intros Hrest.
  now rewrite (IH Hrest).
Qed.

(** Two pieces free of the separator, joined by it, split back into
    themselves. *)
Lemma Split_join_two (first second : string) (sep : ascii) :
  Count first sep = O -> Count second sep = O ->
  Split (first +:+ String sep second) sep = [first; second].
Proof.
  intros Hfirst Hsecond. induction first as [|c rest IH].
  - change ("" +:+ String sep second) with (String sep second). cbn [Split].
    rewrite Ascii.eqb_refl. now rewrite (Split_no_separator _ _ Hsecond).
  - change (String c rest +:+ String sep second)
      with (String c (rest +:+ String sep second)).
    cbn [Split Count] in Hfirst |- *.
    destruct (Ascii.eqb c sep); [discriminate|]. now rewrite (IH Hfirst).
Qed.

(** ** More on the selection loop *)

Lemma selectUser_None_inv (users : list User) (username : string) :
  selectUser users username None = None ->
  Forall (fun candidate => Username candidate <> username) users.
Proof.
  induction users as [|user rest IH]; cbn [selectUser]; [constructor|].
  destruct (String.eqb (Username user) username) eqn:Hname; [discriminate|].
  intros Hrest. constructor; [now apply String.eqb_neq|now apply IH].
Qed.

Lemma selectUser_Some_inv (users : list User) (username : string) (user : User) :
  selectUser users username None = Some user ->
  exists before after,
    users = before ++ user :: after /\
    Forall (fun candidate => Username candidate <> username) before /\
    Username user = username.
Proof.
  induction users as [|other rest IH]; cbn [selectUser]; [discriminate|].
  destruct (String.eqb (Username other) username) eqn:Hname.
  - intros [= ->]. exists [], rest. apply String.eqb_eq in Hname.
    repeat split; [constructor|exact Hname].
  - intros Hrest. destruct (IH Hrest) as (before & after & -> & Hbefore & Huser).
    exists (other :: before), after. apply String.eqb_neq in Hname.
    repeat split; [now constructor|exact Huser].
Qed.

(** ** The decision table of the handler *)

Section Decisions.

Context {Ctx Value Upstream : Type}.
Variable ShiftPath : string -> string * string.
Variable pool_GetGatewayServiceClient :
  Upstream -> string -> result (@GatewayAPIClient Ctx).

Local Abbreviation Closure := (@Closure Ctx Value Upstream).
Local Abbreviation run := (serve ShiftPath pool_GetGatewayServiceClient).
Local Abbreviation inPrefix := (underPrefix ShiftPath).
Local Abbreviation answers := (lookupAnswers ShiftPath pool_GetGatewayServiceClient).
Local Abbreviation selects :=
  (reachesDomainExtraction ShiftPath pool_GetGatewayServiceClient).
Local Abbreviation asks :=
  (reachesAuthorization ShiftPath pool_GetGatewayServiceClient).

(** How far a request gets before the selection loop. *)
Lemma request_cases (clo : Closure) (u : Upstream) (r : Request) :
  ~ inPrefix clo r \/
  (inPrefix clo r /\ BasicAuth r = None) \/
  (exists username password e,
     inPrefix clo r /\ BasicAuth r = Some (username, password) /\
     pool_GetGatewayServiceClient u (GatewaySvc (conf clo)) = Err e) \/
  (exists username password client e,
     inPrefix clo r /\ BasicAuth r = Some (username, password) /\
     pool_GetGatewayServiceClient u (GatewaySvc (conf clo)) = Ok client /\
     FindUsers client (Context_ r) {| Filter := username |} = Err e) \/
  (exists username users, answers clo u r username users).
Proof.
  destruct (String.eqb_spec (fst (ShiftPath (URL_Path r))) (OCMPrefix (conf clo)))
    as [Hin|Hout]; [right|now left].
  destruct (BasicAuth r) as [[username password]|] eqn:Hauth; [right|now left].
  destruct (pool_GetGatewayServiceClient u (GatewaySvc (conf clo)))
    as [client|e] eqn:Hpool; [right|left; now exists username, password, e].
  destruct (FindUsers client (Context_ r) {| Filter := username |})
    as [res|e] eqn:Hfind; [right|left; now exists username, password, client, e].
  exists username, (GetUsers res). split; [exact Hin|].
  now exists password, client, res.
Qed.

(** What the selection loop makes of an answer. *)
Lemma lookup_cases (clo : Closure) (u : Upstream) (r : Request)
    (username : string) (users : list User) :
  answers clo u r username users ->
  (selectUser users username None = None /\
   Forall (fun candidate => Username candidate <> username) users) \/
  (exists user, selectUser users username None = Some user /\ selects clo u r user).
Proof.
  intros Hanswers.
  destruct (selectUser users username None) as [user|] eqn:Hselect.
  - right. exists user. split; [reflexivity|].
    destruct (selectUser_Some_inv _ _ _ Hselect)
      as (before & after & -> & Hbefore & Huser).
    now exists username, before, after.
  - left. split; [reflexivity|]. now apply selectUser_None_inv.
Qed.

(** The answer of a lookup and the user it selects are determined by
    the request and the state of the directory. *)
Lemma answers_unique (clo : Closure) (u : Upstream) (r : Request)
    (username1 username2 : string) (users1 users2 : list User) :
  answers clo u r username1 users1 -> answers clo u r username2 users2 ->
  username1 = username2 /\ users1 = users2.
Proof.
  intros [_ (password1 & client1 & res1 & Hauth1 & Hpool1 & Hfind1 & Husers1)]
         [_ (password2 & client2 & res2 & Hauth2 & Hpool2 & Hfind2 & Husers2)].
  rewrite Hauth1 in Hauth2. injection Hauth2 as <- <-.
  rewrite Hpool1 in Hpool2. injection Hpool2 as <-.
  rewrite Hfind1 in Hfind2. injection Hfind2 as <-.
  split; [reflexivity|congruence].
Qed.

Lemma selects_unique (clo : Closure) (u : Upstream) (r : Request)
    (user1 user2 : User) :
  selects clo u r user1 -> selects clo u r user2 -> user1 = user2.
Proof.
  intros (username1 & before1 & after1 & Hanswers1 & Hbefore1 & Huser1)
         (username2 & before2 & after2 & Hanswers2 & Hbefore2 & Huser2).
  destruct (answers_unique _ _ _ _ _ _ _ Hanswers1 Hanswers2) as [<- Husers].
  pose proof (selectUser_first _ after1 _ _ Hbefore1 Huser1) as Hfirst1.
  pose proof (selectUser_first _ after2 _ _ Hbefore2 Huser2) as Hfirst2.
  rewrite Husers in Hfirst1. congruence.
Qed.

(** The run of a request for which [user] is selected. *)
Lemma run_selected (clo : Closure) (u : Upstream) (r : Request) (user : User) :
  selects clo u r user ->
  run clo u r =
    let lookup := [GetGatewayServiceClient (GatewaySvc (conf clo));
                   CallFindUsers (Context_ r) {| Filter := Username user |}] in
    match Split (Mail user) "@" with
    | [_; domain] =>
        match IsProviderAllowed (authorizer clo) u (Context_ r) domain with
        | Some e =>
            (Returned,
             {| vars := clo;
                trace := lookup ++
                  [CallIsProviderAllowed (Context_ r) domain;
                   LogError (Some e) "provider not registered in OCM";
                   WriteHeader StatusUnauthorized] |})
        | None =>
            (Next tt,
             {| vars := clo;
                trace := lookup ++
                  [CallIsProviderAllowed (Context_ r) domain; ServeHTTP r] |})
        end
    | _ =>
        (Returned,
         {| vars := clo;
            trace := lookup ++
              [LogError None "user mail must contain domain";
               WriteHeader StatusBadRequest] |})
    end.
Proof.
  intros (username & before & after & Hanswers & Hbefore & Huser).
  rewrite (serve_lookup _ _ _ _ _ _ _ Hanswers).
  rewrite (selectUser_first _ _ _ _ Hbefore Huser). now rewrite Huser.
Qed.

(** Every run takes one of the eight paths through the handler. *)
Lemma run_cases (clo : Closure) (u : Upstream) (r : Request) :
  (~ inPrefix clo r /\
   run clo u r =
     (Returned,
      {| vars := clo;
         trace := [LogInfo ("skipping provider authorizer check for: " +:+ URL_Path r);
                   ServeHTTP r] |})) \/
  (inPrefix clo r /\ BasicAuth r = None /\
   run clo u r =
     (Returned,
      {| vars := clo;
         trace := [LogError (err clo) "no basic auth provided";
                   WriteHeader StatusUnauthorized] |})) \/
  (exists username password e,
     inPrefix clo r /\ BasicAuth r = Some (username, password) /\
     pool_GetGatewayServiceClient u (GatewaySvc (conf clo)) = Err e /\
     run clo u r =
       (Returned,
        {| vars := clo;
           trace := [GetGatewayServiceClient (GatewaySvc (conf clo));
                     LogError (Some e) "error getting the grpc client";
                     WriteHeader StatusInternalServerError] |})) \/
  (exists username password client e,
     inPrefix clo r /\ BasicAuth r = Some (username, password) /\
     pool_GetGatewayServiceClient u (GatewaySvc (conf clo)) = Ok client /\
     FindUsers client (Context_ r) {| Filter := username |} = Err e /\
     run clo u r =
       (Returned,
        {| vars := clo;
           trace := [GetGatewayServiceClient (GatewaySvc (conf clo));
                     CallFindUsers (Context_ r) {| Filter := username |};
                     LogError (Some e) "error searching for the user";
                     WriteHeader StatusInternalServerError] |})) \/
  (exists username users,
     answers clo u r username users /\
     Forall (fun candidate => Username candidate <> username) users /\
     run clo u r =
       (Panicked "invalid memory address or nil pointer dereference",
        {| vars := clo;
           trace := [GetGatewayServiceClient (GatewaySvc (conf clo));
                     CallFindUsers (Context_ r) {| Filter := username |}] |})) \/
  (exists user,
     selects clo u r user /\ length (Split (Mail user) "@") <> 2%nat /\
     run clo u r =
       (Returned,
        {| vars := clo;
           trace := [GetGatewayServiceClient (GatewaySvc (conf clo));
                     CallFindUsers (Context_ r) {| Filter := Username user |};
                     LogError None "user mail must contain domain";
                     WriteHeader StatusBadRequest] |})) \/
  (exists user localPart domain e,
     selects clo u r user /\ Split (Mail user) "@" = [localPart; domain] /\
     IsProviderAllowed (authorizer clo) u (Context_ r) domain = Some e /\
     run clo u r =
       (Returned,
        {| vars := clo;
           trace := [GetGatewayServiceClient (GatewaySvc (conf clo));
                     CallFindUsers (Context_ r) {| Filter := Username user |};
                     CallIsProviderAllowed (Context_ r) domain;
                     LogError (Some e) "provider not registered in OCM";
                     WriteHeader StatusUnauthorized] |})) \/
  (exists user localPart domain,
     selects clo u r user /\ Split (Mail user) "@" = [localPart; domain] /\
     IsProviderAllowed (authorizer clo) u (Context_ r) domain = None /\
     run clo u r =
       (Next tt,
        {| vars := clo;
           trace := [GetGatewayServiceClient (GatewaySvc (conf clo));
                     CallFindUsers (Context_ r) {| Filter := Username user |};
                     CallIsProviderAllowed (Context_ r) domain;
                     ServeHTTP r] |})).
Proof.
  destruct (request_cases clo u r)
    as [Hout|[[Hin Hauth]|[(username & password & e & Hin & Hauth & Hpool)|
        [(username & password & client & e & Hin & Hauth & Hpool & Hfind)|
         (username & users & Hanswers)]]]].
  - left. split; [exact Hout|]. now apply serve_skip.
  - right; left. repeat split; try assumption. now apply serve_no_credentials.
  - do 2 right; left. exists username, password, e. repeat split; try assumption.
    exact (serve_no_client _ _ _ _ _ _ _ _ Hin Hauth Hpool).
  - do 3 right; left. exists username, password, client, e.
    repeat split; try assumption.
    exact (serve_lookup_error _ _ _ _ _ _ _ _ _ Hin Hauth Hpool Hfind).
  - do 4 right. rewrite (serve_lookup _ _ _ _ _ _ _ Hanswers). cbn zeta.
    destruct (lookup_cases _ _ _ _ _ Hanswers)
      as [[Hselect Hnone]|(user & Hselect & Hselects)]; rewrite Hselect.
    { left. exists username, users.
      split; [exact Hanswers|]. split; [exact Hnone|reflexivity]. }
    right.
    assert (Hname : Username user = username).
    { destruct (selectUser_Some_inv _ _ _ Hselect) as (_ & _ & _ & _ & Hname).
      exact Hname. }
    rewrite <- Hname.
    destruct (Split (Mail user) "@") as [|piece1 [|piece2 [|piece3 pieces]]]
      eqn:Hsplit.
    + left. exists user. rewrite Hsplit.
      split; [exact Hselects|]. split; [discriminate|reflexivity].
    + left. exists user. rewrite Hsplit.
      split; [exact Hselects|]. split; [discriminate|reflexivity].
    + right.
      destruct (IsProviderAllowed (authorizer clo) u (Context_ r) piece2)
        as [e|] eqn:Hallowed.
      * left. exists user, piece1, piece2, e.
        split; [exact Hselects|]. now repeat split.
      * right. exists user, piece1, piece2.
        split; [exact Hselects|]. now repeat split.
    + left. exists user. rewrite Hsplit.
      split; [exact Hselects|]. split; [discriminate|reflexivity].
Qed.

Ltac cases_of_run clo u r :=
  let Hrun := fresh "Hrun" in
  destruct (run_cases clo u r)
    as [[Hout Hrun]|[(Hin & Hauth & Hrun)|
        [(username & password & e & Hin & Hauth & Hpool & Hrun)|
         [(username & password & client & e & Hin & Hauth & Hpool & Hfind & Hrun)|
          [(username & users & Hanswers & Hnone & Hrun)|
           [(user & Hselects & Hsplit & Hrun)|
            [(user & localPart & domain & e & Hselects & Hsplit & Hanswer & Hrun)|
             (user & localPart & domain & Hselects & Hsplit & Hanswer & Hrun)]]]]]]];
  rewrite Hrun; cbn [fst snd trace statusCodes forwarded identityCalls authorizerCalls].

Ltac use_selected Hselects :=
  rewrite (run_selected _ _ _ _ Hselects); cbn zeta.

(** X1: at the end of a run exactly one thing has happened: the request
    went to the next handler and the handler wrote no status; or the
    handler wrote one status, 400, 401 or 500, and did not call the next
    handler; or it panicked, with no status written and the next
    handler not called. *)
Theorem run_ends_one_way (clo : Closure) (u : Upstream) (r : Request) :
  (forwarded (trace (snd (run clo u r))) = [r] /\
   statusCodes (trace (snd (run clo u r))) = [] /\
   (fst (run clo u r) = Returned \/ fst (run clo u r) = Next tt)) \/
  (forwarded (trace (snd (run clo u r))) = [] /\
   (statusCodes (trace (snd (run clo u r))) = [StatusBadRequest] \/
    statusCodes (trace (snd (run clo u r))) = [StatusUnauthorized] \/
    statusCodes (trace (snd (run clo u r))) = [StatusInternalServerError]) /\
   fst (run clo u r) = Returned) \/
  (forwarded (trace (snd (run clo u r))) = [] /\
   statusCodes (trace (snd (run clo u r))) = [] /\
   fst (run clo u r) = Panicked "invalid memory address or nil pointer dereference").
Proof.
  cases_of_run clo u r; tauto.
Qed.

(** X2: the request reaches the next handler exactly when it is outside the
    prefix, or it reaches the authorization decision and the authorizer
    returns no error for the domain. *)
Theorem forwarded_iff (clo : Closure) (u : Upstream) (r : Request) :
  forwarded (trace (snd (run clo u r))) = [r] <->
  ~ inPrefix clo r \/
  exists domain,
    asks clo u r domain /\
    IsProviderAllowed (authorizer clo) u (Context_ r) domain = None.
Proof.
  split.
  - cases_of_run clo u r; intros Hforwarded; try discriminate Hforwarded.
    + now left.
    + right. exists domain. split; [|exact Hanswer]. now exists user, localPart.
  - intros [Hout|(domain & (user & localPart & Hselects & Hsplit) & Hanswer)].
    + now rewrite (serve_skip _ _ _ _ _ Hout).
    + use_selected Hselects. now rewrite Hsplit, Hanswer.
Qed.

(** X3: the handler answers 401 exactly when the request is under the
    prefix without credentials, or it reaches the authorization
    decision and the authorizer returns an error. *)
Theorem unauthorized_iff (clo : Closure) (u : Upstream) (r : Request) :
  statusCodes (trace (snd (run clo u r))) = [StatusUnauthorized] <->
  (inPrefix clo r /\ BasicAuth r = None) \/
  exists domain e,
    asks clo u r domain /\
    IsProviderAllowed (authorizer clo) u (Context_ r) domain = Some e.
Proof.
  split.
  - cases_of_run clo u r; intros Hstatus; try discriminate Hstatus.
    + now left.
    + right. exists domain, e. split; [|exact Hanswer]. now exists user, localPart.
  - intros [[Hin Hauth]|(domain & e & (user & localPart & Hselects & Hsplit) & Hanswer)].
    + now rewrite (serve_no_credentials _ _ _ _ _ Hin Hauth).
    + use_selected Hselects. now rewrite Hsplit, Hanswer.
Qed.

(** X4: the handler answers 500 exactly when the request is under the
    prefix with credentials and either acquiring the gateway client or
    the lookup made with it fails. *)
Theorem internal_error_iff (clo : Closure) (u : Upstream) (r : Request) :
  statusCodes (trace (snd (run clo u r))) = [StatusInternalServerError] <->
  inPrefix clo r /\
  exists username password,
    BasicAuth r = Some (username, password) /\
    ((exists e, pool_GetGatewayServiceClient u (GatewaySvc (conf clo)) = Err e) \/
     (exists client e,
        pool_GetGatewayServiceClient u (GatewaySvc (conf clo)) = Ok client /\
        FindUsers client (Context_ r) {| Filter := username |} = Err e)).
Proof.
  split.
  - cases_of_run clo u r; intros Hstatus; try discriminate Hstatus.
    + split; [exact Hin|]. exists username, password. split; [exact Hauth|].
      left. now exists e.
    + split; [exact Hin|]. exists username, password. split; [exact Hauth|].
      right. now exists client, e.
  - intros (Hin & username & password & Hauth &
            [[e Hpool]|(client & e & Hpool & Hfind)]).
    + now rewrite (serve_no_client _ _ _ _ _ _ _ _ Hin Hauth Hpool).
    + now rewrite (serve_lookup_error _ _ _ _ _ _ _ _ _ Hin Hauth Hpool Hfind).
Qed.

(** X5: the handler answers 400 exactly when a user is selected whose
    e-mail does not hold exactly one ["@"]. *)
Theorem bad_request_iff (clo : Closure) (u : Upstream) (r : Request) :
  statusCodes (trace (snd (run clo u r))) = [StatusBadRequest] <->
  exists user, selects clo u r user /\ Count (Mail user) "@" <> 1%nat.
Proof.
  split.
  - cases_of_run clo u r; intros Hstatus; try discriminate Hstatus.
    exists user. split; [exact Hselects|]. now rewrite <- Split_two_pieces.
  - intros (user & Hselects & Hcount). rewrite <- Split_two_pieces in Hcount.
    use_selected Hselects.
    destruct (Split (Mail user) "@") as [|piece1 [|piece2 [|piece3 pieces]]];
      try reflexivity.
    now contradict Hcount.
Qed.

(** X6: the handler panics exactly when the lookup answers and no candidate
    carries the user name of the request, an empty answer included. *)
Theorem panics_iff (clo : Closure) (u : Upstream) (r : Request) :
  (exists msg, fst (run clo u r) = Panicked msg) <->
  exists username users,
    answers clo u r username users /\
    Forall (fun candidate => Username candidate <> username) users.
Proof.
  split.
  - cases_of_run clo u r; intros [msg Hflow]; try discriminate Hflow.
    now exists username, users.
  - intros (username & users & Hanswers & Hnone).
    rewrite (serve_lookup _ _ _ _ _ _ _ Hanswers).
    rewrite (selectUser_none _ _ Hnone). now eexists.
Qed.

(** X7: the authorizer is asked about a domain exactly when a user is
    selected whose e-mail is a local part, one ["@"] and that domain,
    with no further ["@"] in either; the local part and the domain may
    be empty. *)
Theorem authorizer_asked_iff (clo : Closure) (u : Upstream) (r : Request)
    (asked : string) :
  authorizerCalls (trace (snd (run clo u r))) = [asked] <->
  exists user localPart,
    selects clo u r user /\
    Mail user = localPart +:+ "@" +:+ asked /\
    Count localPart "@" = O /\ Count asked "@" = O.
Proof.
  split.
  - cases_of_run clo u r; intros Hcalls; try discriminate Hcalls;
      injection Hcalls as <-; exists user, localPart;
      (split; [exact Hselects|]); now apply Split_two_pieces_inv.
  - intros (user & localPart & Hselects & Hmail & Hlocal & Hasked).
    use_selected Hselects. rewrite Hmail.
    change ("@" +:+ asked) with (String "@" asked).
    rewrite (Split_join_two _ _ _ Hlocal Hasked).
    now destruct (IsProviderAllowed (authorizer clo) u (Context_ r) asked).
Qed.

(** X8: the authorizer is asked at most once in a run. *)
Theorem authorizer_asked_at_most_once (clo : Closure) (u : Upstream) (r : Request) :
  (length (authorizerCalls (trace (snd (run clo u r)))) <= 1)%nat.
Proof.
  cases_of_run clo u r; cbn; lia.
Qed.

(** X9: the handler contacts nothing for identity resolution exactly when
    the request is outside the prefix or carries no credentials. *)
Theorem no_identity_call_iff (clo : Closure) (u : Upstream) (r : Request) :
  identityCalls (trace (snd (run clo u r))) = [] <->
  ~ inPrefix clo r \/ BasicAuth r = None.
Proof.
  split.
  - cases_of_run clo u r; intros Hcalls; try discriminate Hcalls;
      [now left|now right].
  - intros Hwhy. cases_of_run clo u r; try reflexivity;
      try (destruct Hanswers as [Hin (password & _ & _ & Hauth & _)]);
      try (destruct Hselects
             as (username & _ & _ & [Hin (password & _ & _ & Hauth & _)] & _));
      destruct Hwhy as [Hwhy|Hwhy]; try contradiction; congruence.
Qed.

(** X10: a status is the last thing the handler does, and the reason is
    logged as an error just before it. *)
Theorem status_is_logged_and_last (clo : Closure) (u : Upstream) (r : Request)
    (code : Z) :
  In (WriteHeader code) (trace (snd (run clo u r))) ->
  exists before reason msg,
    trace (snd (run clo u r)) = before ++ [LogError reason msg; WriteHeader code].
Proof.
  cases_of_run clo u r; cbn [In]; intros Hwritten;
    repeat (destruct Hwritten as [Hwritten|Hwritten]; try discriminate Hwritten);
    try contradiction; injection Hwritten as <-.
  - now exists [], (err clo), "no basic auth provided".
  - now exists [GetGatewayServiceClient (GatewaySvc (conf clo))], (Some e),
      "error getting the grpc client".
  - now exists [GetGatewayServiceClient (GatewaySvc (conf clo));
                CallFindUsers (Context_ r) {| Filter := username |}], (Some e),
      "error searching for the user".
  - now exists [GetGatewayServiceClient (GatewaySvc (conf clo));
                CallFindUsers (Context_ r) {| Filter := Username user |}], None,
      "user mail must contain domain".
  - now exists [GetGatewayServiceClient (GatewaySvc (conf clo));
                CallFindUsers (Context_ r) {| Filter := Username user |};
                CallIsProviderAllowed (Context_ r) domain], (Some e),
      "provider not registered in OCM".
Qed.

(** X11: with credentials and a gateway client, the identity resolver is
    queried once, at the configured address, with the context of the
    request and the Basic Auth user name as the filter; the password
    goes nowhere. *)
Theorem lookup_filters_by_username (clo : Closure) (u : Upstream) (r : Request)
    (name secret : string) (gateway : GatewayAPIClient) :
  inPrefix clo r ->
  BasicAuth r = Some (name, secret) ->
  pool_GetGatewayServiceClient u (GatewaySvc (conf clo)) = Ok gateway ->
  identityCalls (trace (snd (run clo u r))) =
    [GetGatewayServiceClient (GatewaySvc (conf clo));
     CallFindUsers (Context_ r) {| Filter := name |}].
Proof.
  intros Hprefix Hcredentials Hgateway.
  cases_of_run clo u r;
    try (destruct Hanswers as [_ (password & _ & _ & Hauth & _)]);
    try (destruct Hselects
           as (username & _ & _ & [_ (password & _ & _ & Hauth & _)] & _ & ->));
    try contradiction; congruence.
Qed.

(** X12: the password of the request is not looked at: two requests that
    differ in nothing else end the same way, with the same status, the
    same calls to the identity resolver and to the authorizer, and both
    or neither reach the next handler. *)
Theorem password_is_ignored (clo : Closure) (u : Upstream) (ctx : Ctx)
    (path name secret1 secret2 : string) :
  fst (run clo u {| Context_ := ctx; URL_Path := path;
                    BasicAuth := Some (name, secret1) |}) =
  fst (run clo u {| Context_ := ctx; URL_Path := path;
                    BasicAuth := Some (name, secret2) |}) /\
  statusCodes (trace (snd (run clo u {| Context_ := ctx; URL_Path := path;
                                        BasicAuth := Some (name, secret1) |}))) =
  statusCodes (trace (snd (run clo u {| Context_ := ctx; URL_Path := path;
                                        BasicAuth := Some (name, secret2) |}))) /\
  identityCalls (trace (snd (run clo u {| Context_ := ctx; URL_Path := path;
                                          BasicAuth := Some (name, secret1) |}))) =
  identityCalls (trace (snd (run clo u {| Context_ := ctx; URL_Path := path;
                                          BasicAuth := Some (name, secret2) |}))) /\
  authorizerCalls (trace (snd (run clo u {| Context_ := ctx; URL_Path := path;
                                            BasicAuth := Some (name, secret1) |}))) =
  authorizerCalls (trace (snd (run clo u {| Context_ := ctx; URL_Path := path;
                                            BasicAuth := Some (name, secret2) |}))) /\
  length (forwarded (trace (snd (run clo u {| Context_ := ctx; URL_Path := path;
                                              BasicAuth := Some (name, secret1) |})))) =
  length (forwarded (trace (snd (run clo u {| Context_ := ctx; URL_Path := path;
                                              BasicAuth := Some (name, secret2) |})))).
Proof.
  enter_handler. cbn [Context_ URL_Path BasicAuth].
  destruct (ShiftPath path) as [head tail].
  destruct (String.eqb head (OCMPrefix (conf clo))); [|now repeat split]. cbn.
  destruct (pool_GetGatewayServiceClient u (GatewaySvc (conf clo)))
    as [client|e]; [|now repeat split]. cbn.
  destruct (FindUsers client ctx {| Filter := name |}) as [res|e];
    [|now repeat split]. cbn.
  destruct (selectUser (GetUsers res) name None) as [user|]; [|now repeat split].
  cbn. destruct (Split (Mail user) "@") as [|piece1 [|piece2 [|piece3 pieces]]];
    try (now repeat split).
  cbn. destruct (IsProviderAllowed (authorizer clo) u ctx piece2);
    now repeat split.
Qed.

(** X13: the decision on a request depends on the answer of the directory
    only through the selected user: with the same user selected and the
    same answers of the authorizer, the other candidates, duplicates of
    the user name after the first included, change nothing. *)
Theorem decision_depends_on_selected_user (clo : Closure) (u1 u2 : Upstream)
    (r : Request) (chosen : User) :
  selects clo u1 r chosen ->
  selects clo u2 r chosen ->
  (forall asked,
     IsProviderAllowed (authorizer clo) u1 (Context_ r) asked =
     IsProviderAllowed (authorizer clo) u2 (Context_ r) asked) ->
  fst (run clo u1 r) = fst (run clo u2 r) /\
  trace (snd (run clo u1 r)) = trace (snd (run clo u2 r)).
Proof.
  intros Hchosen1 Hchosen2 Hsame.
  rewrite (run_selected _ _ _ _ Hchosen1), (run_selected _ _ _ _ Hchosen2).
  cbn zeta.
  destruct (Split (Mail chosen) "@") as [|piece1 [|piece2 [|piece3 pieces]]];
    try (now split).
  rewrite Hsame.
  now destruct (IsProviderAllowed (authorizer clo) u2 (Context_ r) piece2).
Qed.

End Decisions.

(** ** More on construction *)

Section Building.

Context {Ctx Value Upstream RawConfig : Type}.
Variable NewFuncs : gmap string (@NewFunc Ctx Value Upstream).
Variable Decode : RawConfig -> result (@config Value).
Variable GetGatewaySVC : string -> string.
Variable ShiftPath : string -> string * string.
Variable pool_GetGatewayServiceClient :
  Upstream -> string -> result (@GatewayAPIClient Ctx).

Local Abbreviation build := (New NewFuncs Decode GetGatewaySVC).
Local Abbreviation run := (serve ShiftPath pool_GetGatewayServiceClient).

(** What [New] returns, by the three things that can go wrong. *)
Lemma build_cases (m : RawConfig) :
  (exists e, Decode m = Err e /\ build m = Err e) \/
  (exists c,
     Decode m = Ok c /\ NewFuncs !! Driver c = None /\
     build m = Err ("driver " +:+ Driver c +:+ " not found for provider authorizer")) \/
  (exists c f e,
     Decode m = Ok c /\ NewFuncs !! Driver c = Some f /\
     f (Drivers c !!! Driver c) = Err e /\ build m = Err e) \/
  (exists c f a,
     Decode m = Ok c /\ NewFuncs !! Driver c = Some f /\
     f (Drivers c !!! Driver c) = Ok a /\
     build m =
       Ok ({| conf := {| Driver := Driver c;
                         Drivers := Drivers c;
                         OCMPrefix := if String.eqb (OCMPrefix c) ""
                                      then "ocm" else OCMPrefix c;
                         GatewaySvc := GetGatewaySVC (GatewaySvc c) |};
              authorizer := a;
              err := None |},
           defaultPriority)).
Proof.
  destruct (Decode m) as [c|e] eqn:Hdecode.
  - right. rewrite (New_getDriver _ _ _ _ _ Hdecode). unfold getDriver.
    unfold NewFunc in *.
    destruct (NewFuncs !! Driver c) as [f|] eqn:Hfactory.
    + right. destruct (f (Drivers c !!! Driver c)) as [a|e] eqn:Hmade.
      * right. now exists c, f, a.
      * left. now exists c, f, e.
    + left. now exists c.
  - left. exists e. split; [reflexivity|]. unfold_New. now rewrite Hdecode.
Qed.

(** X14: [New] fails exactly when the configuration does not decode, the
    selected driver is not registered, or its factory fails, and it
    returns the error of the step that failed. *)
Theorem build_fails_iff (m : RawConfig) (failure : error) :
  build m = Err failure <->
  Decode m = Err failure \/
  exists c,
    Decode m = Ok c /\
    ((NewFuncs !! Driver c = None /\
      failure = "driver " +:+ Driver c +:+ " not found for provider authorizer") \/
     (exists f,
        NewFuncs !! Driver c = Some f /\
        f (Drivers c !!! Driver c) = Err failure)).
Proof.
  destruct (build_cases m)
    as [(e & Hdecode & Hbuild)|[(c & Hdecode & Hfactory & Hbuild)|
        [(c & f & e & Hdecode & Hfactory & Hmade & Hbuild)|
         (c & f & a & Hdecode & Hfactory & Hmade & Hbuild)]]];
    rewrite Hbuild, Hdecode; split.
  - intros [= ->]. now left.
  - intros [[= ->]|(c & [=] & _)]. reflexivity.
  - intros [= <-]. right. exists c. split; [reflexivity|]. now left.
  - intros [[=]|(c' & [= <-] & [[_ ->]|(f & Hsome & _)])]; [reflexivity|].
    unfold NewFunc in *. congruence.
  - intros [= ->]. right. exists c. split; [reflexivity|]. right. now exists f.
  - intros [[=]|(c' & [= <-] & [[Hnone _]|(f' & Hsome & Hfails)])];
      unfold NewFunc in *; congruence.
  - intros [=].
  - intros [[=]|(c' & [= <-] & [[Hnone _]|(f' & Hsome & Hfails)])];
      unfold NewFunc in *; congruence.
Qed.


(** X16: [New] looks at the registry only under the selected name: a factory
    registered under another name changes nothing. *)
Theorem build_ignores_other_drivers (m : RawConfig) (other : string)
    (factory : NewFunc) :
  (forall c, Decode m = Ok c -> Driver c <> other) ->
  New (<[other := factory]> NewFuncs) Decode GetGatewaySVC m = build m.
Proof.
  intros Hother. unfold_New. destruct (Decode m) as [c|e]; [|reflexivity].
  cbn. specialize (Hother c eq_refl).
  destruct (String.eqb (OCMPrefix c) ""); cbn; unfold NewFunc in *;
    now rewrite lookup_insert_ne.
Qed.

(** X17: a registered driver without an entry in [drivers] is built from the
    empty settings bag: the missing entry is no error of [New]. *)
Theorem build_without_settings (m : RawConfig) (c : config) (f : NewFunc) :
  Decode m = Ok c ->
  NewFuncs !! Driver c = Some f ->
  Drivers c !! Driver c = None ->
  build m =
    match f ∅ with
    | Err e => Err e
    | Ok a =>
        Ok ({| conf := {| Driver := Driver c;
                          Drivers := Drivers c;
                          OCMPrefix := if String.eqb (OCMPrefix c) ""
                                       then "ocm" else OCMPrefix c;
                          GatewaySvc := GetGatewaySVC (GatewaySvc c) |};
               authorizer := a;
               err := None |},
            defaultPriority)
    end.
Proof.
  intros Hdecode Hfactory Hmissing. rewrite (New_getDriver _ _ _ _ _ Hdecode).
  unfold getDriver. unfold NewFunc in *. rewrite Hfactory.
  now rewrite (lookup_total_alt (Drivers c)), Hmissing.
Qed.

(** X18: a handler built from a configuration without a prefix guards
    ["ocm"]: requests with another first segment pass through, requests
    under ["ocm"] without credentials are answered 401, and the log
    line of that rejection carries no error. *)
Theorem built_handler_guards_ocm_by_default (m : RawConfig) (c : config)
    (built : Closure) (priority : Z) (u : Upstream) (r : Request) :
  Decode m = Ok c ->
  OCMPrefix c = "" ->
  build m = Ok (built, priority) ->
  (fst (ShiftPath (URL_Path r)) <> "ocm" ->
   forwarded (trace (snd (run built u r))) = [r] /\
   statusCodes (trace (snd (run built u r))) = []) /\
  (fst (ShiftPath (URL_Path r)) = "ocm" -> BasicAuth r = None ->
   trace (snd (run built u r)) =
     [LogError None "no basic auth provided"; WriteHeader StatusUnauthorized]).
Proof.
  intros Hdecode Hempty Hbuild.
  rewrite (New_getDriver _ _ _ _ _ Hdecode), Hempty in Hbuild. cbn in Hbuild.
  destruct (getDriver NewFuncs c) as [a|e]; [|discriminate Hbuild].
  injection Hbuild as <- <-. split.
  - intros Hother. now rewrite serve_skip.
  - intros Hocm Hauth. now rewrite serve_no_credentials.
Qed.

(** X19: a handler built by [New] asks the pool for the address that
    [GetGatewaySVC] makes of the configured one. *)
Theorem built_handler_dials_shared_gateway (m : RawConfig) (c : config)
    (built : Closure) (priority : Z) (u : Upstream) (r : Request)
    (name secret : string) :
  Decode m = Ok c ->
  build m = Ok (built, priority) ->
  underPrefix ShiftPath built r ->
  BasicAuth r = Some (name, secret) ->
  exists rest,
    trace (snd (run built u r)) =
      GetGatewayServiceClient (GetGatewaySVC (GatewaySvc c)) :: rest.
Proof.
  intros Hdecode Hbuild Hprefix Hcredentials.
  assert (Hdials : GatewaySvc (conf built) = GetGatewaySVC (GatewaySvc c)).
  { rewrite (New_getDriver _ _ _ _ _ Hdecode) in Hbuild.
    destruct (getDriver NewFuncs c) as [a|e]; [|discriminate Hbuild].
    now injection Hbuild as <- <-. }
  rewrite <- Hdials.
  destruct (run_cases ShiftPath pool_GetGatewayServiceClient built u r)
    as [[Hout Hrun]|[(Hin & Hauth & Hrun)|
        [(username & password & e & Hin & Hauth & Hpool & Hrun)|
         [(username & password & client & e & Hin & Hauth & Hpool & Hfind & Hrun)|
          [(username & users & Hanswers & Hnone & Hrun)|
           [(user & Hselects & Hsplit & Hrun)|
            [(user & localPart & domain & e & Hselects & Hsplit & Hanswer & Hrun)|
             (user & localPart & domain & Hselects & Hsplit & Hanswer & Hrun)]]]]]]];
    rewrite Hrun; try contradiction; try congruence; now eexists.
Qed.

End Building.

(** ** Further concrete runs *)

Lemma sample_build :
  New sampleFuncs Ok sampleGatewaySVC (sampleConfig "list")
    = Ok (sampleClosure, defaultPriority).
Proof. reflexivity. Qed.

Lemma status_is_logged_and_last_witness :
  In (WriteHeader StatusUnauthorized)
     (trace (snd (sampleServe (Serving sampleUsers) (requestOf "bob")))) /\
  exists before reason msg,
    trace (snd (sampleServe (Serving sampleUsers) (requestOf "bob")))
      = before ++ [LogError reason msg; WriteHeader StatusUnauthorized].
Proof.
  assert (Hwritten : In (WriteHeader StatusUnauthorized)
            (trace (snd (sampleServe (Serving sampleUsers) (requestOf "bob"))))).
  { cbv. do 4 right. left. reflexivity. }
  split; [exact Hwritten|].
  exact (status_is_logged_and_last firstSegment directoryPool sampleClosure
           (Serving sampleUsers) (requestOf "bob") StatusUnauthorized Hwritten).
Defined.

Lemma lookup_filters_by_username_witness :
  underPrefix firstSegment sampleClosure (requestOf "carol") /\
  BasicAuth (requestOf "carol") = Some ("carol", "secret") /\
  identityCalls (trace (snd (sampleServe (Serving sampleUsers) (requestOf "carol"))))
    = [GetGatewayServiceClient "localhost:19000";
       CallFindUsers tt {| Filter := "carol" |}].
Proof.
  split; [reflexivity|]. split; [reflexivity|].
  exact (lookup_filters_by_username firstSegment directoryPool sampleClosure
           (Serving sampleUsers) (requestOf "carol") "carol" "secret"
           {| FindUsers := fun _ _ => Ok {| GetUsers := sampleUsers |} |}
           eq_refl eq_refl eq_refl).
Defined.

Lemma decision_depends_on_selected_user_witness :
  reachesDomainExtraction firstSegment directoryPool sampleClosure
    (Serving sampleUsers) (requestOf "bob") bob /\
  reachesDomainExtraction firstSegment directoryPool sampleClosure
    (Serving [bob; {| Username := "bob"; Mail := "bob@example.org" |}])
    (requestOf "bob") bob /\
  fst (sampleServe (Serving sampleUsers) (requestOf "bob")) =
  fst (sampleServe (Serving [bob; {| Username := "bob"; Mail := "bob@example.org" |}])
         (requestOf "bob")) /\
  trace (snd (sampleServe (Serving sampleUsers) (requestOf "bob"))) =
  trace (snd (sampleServe
                (Serving [bob; {| Username := "bob"; Mail := "bob@example.org" |}])
                (requestOf "bob"))).
Proof.
  assert (Hfull : reachesDomainExtraction firstSegment directoryPool sampleClosure
                    (Serving sampleUsers) (requestOf "bob") bob).
  { apply (sample_reachesDomainExtraction [alice] [carol; dave; erin] bob).
    repeat constructor; discriminate. }
  assert (Hduplicate :
            reachesDomainExtraction firstSegment directoryPool sampleClosure
              (Serving [bob; {| Username := "bob"; Mail := "bob@example.org" |}])
              (requestOf "bob") bob).
  { apply (sample_reachesDomainExtraction []
             [{| Username := "bob"; Mail := "bob@example.org" |}] bob).
    constructor. }
  split; [exact Hfull|]. split; [exact Hduplicate|].
  apply (decision_depends_on_selected_user firstSegment directoryPool sampleClosure
           (Serving sampleUsers)
           (Serving [bob; {| Username := "bob"; Mail := "bob@example.org" |}])
           (requestOf "bob") bob Hfull Hduplicate).
  reflexivity.
Defined.


Lemma build_ignores_other_drivers_witness :
  (forall c, @Ok config (sampleConfig "list") = Ok c -> Driver c <> "static") /\
  New (<["static" := brokenDriver]> sampleFuncs) Ok sampleGatewaySVC
      (sampleConfig "list")
    = New sampleFuncs Ok sampleGatewaySVC (sampleConfig "list").
Proof.
  assert (Hother : forall c, @Ok config (sampleConfig "list") = Ok c ->
                             Driver c <> "static").
  { intros c [= <-]. discriminate. }
  split; [exact Hother|].
  exact (build_ignores_other_drivers sampleFuncs Ok sampleGatewaySVC
           (sampleConfig "list") "static" brokenDriver Hother).
Defined.

Lemma build_without_settings_witness :
  sampleFuncs !! Driver (sampleConfig "broken") = Some brokenDriver /\
  Drivers (sampleConfig "broken") !! Driver (sampleConfig "broken") = None /\
  New sampleFuncs Ok sampleGatewaySVC (sampleConfig "broken")
    = Err "cannot reach the registry".
Proof.
  split; [reflexivity|]. split; [reflexivity|].
  exact (build_without_settings sampleFuncs Ok sampleGatewaySVC
           (sampleConfig "broken") (sampleConfig "broken") brokenDriver
           eq_refl eq_refl eq_refl).
Defined.

Lemma built_handler_guards_ocm_by_default_witness :
  OCMPrefix (sampleConfig "list") = "" /\
  New sampleFuncs Ok sampleGatewaySVC (sampleConfig "list")
    = Ok (sampleClosure, defaultPriority) /\
  (forwarded (trace (snd (sampleServe (Serving sampleUsers)
                            (sampleRequest "/datagateway/file" None))))
     = [sampleRequest "/datagateway/file" None] /\
   statusCodes (trace (snd (sampleServe (Serving sampleUsers)
                              (sampleRequest "/datagateway/file" None)))) = []) /\
  trace (snd (sampleServe (Serving sampleUsers) (sampleRequest "/ocm/shares" None)))
    = [LogError None "no basic auth provided"; WriteHeader StatusUnauthorized].
Proof.
  split; [reflexivity|]. split; [exact sample_build|]. split.
  - apply (proj1 (built_handler_guards_ocm_by_default sampleFuncs Ok sampleGatewaySVC
                    firstSegment directoryPool (sampleConfig "list")
                    (sampleConfig "list") sampleClosure defaultPriority
                    (Serving sampleUsers) (sampleRequest "/datagateway/file" None)
                    eq_refl eq_refl sample_build)).
    discriminate.
  - apply (proj2 (built_handler_guards_ocm_by_default sampleFuncs Ok sampleGatewaySVC
                    firstSegment directoryPool (sampleConfig "list")
                    (sampleConfig "list") sampleClosure defaultPriority
                    (Serving sampleUsers) (sampleRequest "/ocm/shares" None)
                    eq_refl eq_refl sample_build));
      reflexivity.
Defined.

Lemma built_handler_dials_shared_gateway_witness :
  New sampleFuncs Ok sampleGatewaySVC (sampleConfig "list")
    = Ok (sampleClosure, defaultPriority) /\
  underPrefix firstSegment sampleClosure (requestOf "alice") /\
  BasicAuth (requestOf "alice") = Some ("alice", "secret") /\
  exists rest,
    trace (snd (sampleServe (Serving sampleUsers) (requestOf "alice")))
      = GetGatewayServiceClient (sampleGatewaySVC (GatewaySvc (sampleConfig "list")))
          :: rest.
Proof.
  split; [exact sample_build|]. split; [reflexivity|]. split; [reflexivity|].
  exact (built_handler_dials_shared_gateway sampleFuncs Ok sampleGatewaySVC
           firstSegment directoryPool (sampleConfig "list") (sampleConfig "list")
           sampleClosure defaultPriority (Serving sampleUsers) (requestOf "alice")
           "alice" "secret" eq_refl sample_build eq_refl eq_refl).
Defined.
